(** * middleware: net/http middleware and its registry

    A shallow embedding of [middleware.go].  Go code that mutates state or
    panics is written in a small state-and-panic monad; interface values
    ([http.ResponseWriter], [io.Writer]) are records of methods acting on
    the state they own. *)

From Stdlib Require Import ZArith String Ascii List DecimalString Lia.
From Stdlib Require Import Strings.Byte.
From stdpp Require Import gmap strings.

Local Open Scope Z_scope.

(** ** Panics and the state monad *)

(** The value a goroutine panics with.  [PanicNil] is the nil of
    [panic(nil)], as the runtime keeps it before Go 1.21 and under
    [GODEBUG=panicnil=1]; a later runtime raises a run-time error in its
    place, which is a [RuntimeError] here. *)
Inductive PanicValue : Type :=
| PanicNil
| PanicString (msg : string)
| RuntimeError (msg : string).

Inductive outcome (A : Type) : Type :=
| Done (a : A)
| Panicked (v : PanicValue).
Arguments Done {A} a.
Arguments Panicked {A} v.

(** A Go call over a state [S]: it returns or panics, and leaves a state
    behind in both cases. *)
Definition M (S A : Type) : Type := S -> outcome A * S.

Definition ret {S A} (a : A) : M S A := fun s => (Done a, s).

Definition bind {S A B} (m : M S A) (k : A -> M S B) : M S B :=
  fun s => match m s with
           | (Done a, s') => k a s'
           | (Panicked v, s') => (Panicked v, s')
           end.

Definition panic {S A} (v : PanicValue) : M S A := fun s => (Panicked v, s).

Notation "x <- m ;; k" := (bind m (fun x => k))
  (at level 100, m at next level, right associativity).
Notation "m ;;; k" := (bind m (fun _ => k))
  (at level 100, right associativity).

(** What [recover()] returns in a deferred function: nil ([None]) when the
    goroutine is not panicking, and the value of the panic when it is,
    which is nil again for a panic with nil. *)
Definition recover (panicking : option PanicValue) : option PanicValue :=
  match panicking with
  | None => None
  | Some PanicNil => None
  | Some v => Some v
  end.

(** [defer func() { r := recover(); ... }()] around [body]: the deferred
    function runs when [body] returns or panics; its [recover()] stops the
    panic, if there is one, and hands over what [recover] returns.  A
    panic raised by the deferred function itself goes on to the caller. *)
Definition defer_recover {S} (body : M S unit)
    (deferred : option PanicValue -> M S unit) : M S unit :=
  fun s => match body s with
           | (Done _, s') => deferred (recover None) s'
           | (Panicked v, s') => deferred (recover (Some v)) s'
           end.

Definition nil_dereference : PanicValue :=
  RuntimeError "invalid memory address or nil pointer dereference".

(** The state a call leaves, whatever its outcome. *)
Definition after {S A} (m : M S A) (s : S) : S := snd (m s).
Definition result {S A} (m : M S A) (s : S) : outcome A := fst (m s).

(** ** Values of net/http *)

Definition error : Type := option string.
Definition http_Header : Type := gmap string (list string).
Definition http_StatusOK : Z := 200.

Record url_URL : Type := { Path : string }.
(** [r.URL] is a [*url.URL]; [None] is the nil pointer. *)
Record http_Request : Type := { URL : option url_URL }.

(** The wrapper around a response sink of type [W]. *)
Record statusResponseWriter (W : Type) : Type := {
  wrapped : W;
  status : Z
}.
Arguments wrapped {W} _.
Arguments status {W} _.

Section Middleware.

(** [G] is the part of the process state outside the response sink: the
    clock, the log outputs, whatever the handlers keep. *)
Context {G : Type}.

(** [http.ResponseWriter]: the three methods of the interface, over the
    sink's own state [W] and the rest of the process. *)
Class ResponseWriter (W : Type) : Type := {
  rw_Header : M (W * G) http_Header;
  rw_Write : list byte -> M (W * G) (Z * error);
  rw_WriteHeader : Z -> M (W * G) unit
}.

(** *** statusResponseWriter *)

Section StatusWriter.
Context {W : Type} `{ResponseWriter W}.

(** A call [l.wrapped.m(...)]: the method runs on the wrapped sink and the
    field [status] is left alone. *)
Definition on_wrapped {A} (m : M (W * G) A) : M (statusResponseWriter W * G) A :=
  fun '(l, g) =>
    let '(o, (w', g')) := m (wrapped l, g) in
    (o, ({| wrapped := w'; status := status l |}, g')).

Definition setStatus (statusValue : Z) : M (statusResponseWriter W * G) unit :=
  fun '(l, g) =>
    if status l =? 0
    then (Done tt, ({| wrapped := wrapped l; status := statusValue |}, g))
    else (Done tt, (l, g)).

Definition GetStatus (l : statusResponseWriter W) : Z :=
  if status l =? 0 then http_StatusOK else status l.

Definition Header : M (statusResponseWriter W * G) http_Header :=
  on_wrapped rw_Header.

Definition Write (data : list byte) : M (statusResponseWriter W * G) (Z * error) :=
  setStatus http_StatusOK ;;;
  on_wrapped (rw_Write data).

Definition WriteHeader (statusValue : Z) : M (statusResponseWriter W * G) unit :=
  setStatus statusValue ;;;
  on_wrapped (rw_WriteHeader statusValue).

#[export] Instance statusResponseWriter_ResponseWriter :
  ResponseWriter (statusResponseWriter W) := {
  rw_Header := Header;
  rw_Write := Write;
  rw_WriteHeader := WriteHeader
}.

(** [&statusResponseWriter{wrapped: w}] *)
Definition new_statusResponseWriter (w : W) : statusResponseWriter W :=
  {| wrapped := w; status := 0 |}.

End StatusWriter.

(** *** Handlers *)

(** [http.HandlerFunc]: a handler is handed a response sink through the
    interface only, so it runs over any sink type. *)
Definition HandlerFunc : Type :=
  forall (W : Type), ResponseWriter W -> option http_Request -> M (W * G) unit.

(** [http.Handler] as an interface value; [None] is the nil interface. *)
Definition http_Handler : Type := option HandlerFunc.

Definition ServeHTTP (h : http_Handler) : HandlerFunc :=
  match h with
  | Some f => f
  | None => fun W _ _ => panic nil_dereference
  end.

(** [io.Writer]: an object living in [G], seen through its method. *)
Record io_Writer : Type := { io_Write : list byte -> M G (Z * error) }.

(** A call that concerns the process state only, made while a sink is at
    hand. *)
Definition in_process {W A} (m : M G A) : M (W * G) A :=
  fun '(w, g) => let '(o, g') := m g in (o, (w, g')).

(** [r.URL.Path]: both [r] and [r.URL] are pointers. *)
Definition URL_Path {S} (r : option http_Request) : M S string :=
  match r with
  | None => panic nil_dereference
  | Some rq =>
      match URL rq with
      | None => panic nil_dereference
      | Some u => ret (Path u)
      end
  end.

(** [%d] of an [int]. *)
Definition FormatInt (n : Z) : string := NilEmpty.string_of_int (Z.to_int n).

Definition newline : string := String "010" EmptyString.

Section Logging.

(** The clock of package [time]: [time.Now()], [end.Sub(start)] (a
    [time.Duration], nanoseconds) and [Duration.String()], which [%v]
    prints. *)
Context {time_Time : Type}.
Variable time_Now : G -> time_Time * G.
Variable time_Sub : time_Time -> time_Time -> Z.
Variable Duration_String : Z -> string.

Definition Now {W} : M (W * G) time_Time :=
  in_process (fun g => let '(t, g') := time_Now g in (Done t, g')).

(** [fmt.Sprintf("%d %s %v\n", code, path, d)] *)
Definition Sprintf (code : Z) (path : string) (d : Z) : string :=
  (FormatInt code ++ " " ++ path ++ " " ++ Duration_String d ++ newline)%string.

(** [statusWriter := &statusResponseWriter{wrapped: w}], for the body of
    the handler; the caller's sink is what the wrapper holds at the end. *)
Definition with_statusWriter {W A}
    (body : M (statusResponseWriter W * G) A) : M (W * G) A :=
  fun '(w, g) =>
    let '(o, (l, g')) := body (new_statusResponseWriter w, g) in
    (o, (wrapped l, g')).

Definition statusWriter_GetStatus {W} : M (statusResponseWriter W * G) Z :=
  fun '(l, g) => (Done (GetStatus l), (l, g)).

Definition NewLoggingMiddleware (out : io_Writer) (chain : http_Handler)
  : HandlerFunc :=
  fun W _ r =>
    with_statusWriter (
      start <- Now ;;
      ServeHTTP chain (statusResponseWriter W) _ r ;;;
      end_ <- Now ;;
      code <- statusWriter_GetStatus ;;
      path <- URL_Path r ;;
      in_process
        (io_Write out (list_byte_of_string (Sprintf code path (time_Sub end_ start)))) ;;;
      ret tt).

End Logging.

Definition NewPanicMiddleware (chain : http_Handler) : http_Handler :=
  Some (fun W _ r =>
    defer_recover
      (ServeHTTP chain W _ r)
      (fun r => match r with
                | Some _ => rw_WriteHeader 500
                | None => ret tt
                end)).

(** *** The registry *)

(** [func(http.Handler) http.Handler] *)
Definition Middleware : Type := http_Handler -> http_Handler.

(** The values of the map are func values, which may be nil ([None]). *)
Abbreviation Registry := (gmap string (option Middleware)).

(** The map at process start: [make(map[string]func(http.Handler) http.Handler)]. *)
Definition registry : Registry := ∅.

Definition key_reused : PanicValue := PanicString "Middleware registry key reused".
Definition invalid_middleware : PanicValue := PanicString "Invalid middleware requested".

(** [registryLock] makes each of the three functions one atomic step on
    the map; the steps are modelled one after the other. *)
Definition Register (key : string) (f : option Middleware) : M Registry unit :=
  match f with
  | None => ret tt
  | Some _ =>
      fun reg =>
        match reg !! key with
        | Some _ => panic key_reused reg
        | None => (Done tt, <[key := f]> reg)
        end
  end.

Definition Get (key : string) : M Registry (option Middleware * bool) :=
  fun reg =>
    match reg !! key with
    | Some f => (Done (f, true), reg)
    | None => (Done (None, false), reg)
    end.

Definition MustGet (key : string) : M Registry (option Middleware) :=
  fun reg =>
    let f := match reg !! key with Some f => f | None => None end in
    match f with
    | None => panic invalid_middleware reg
    | Some _ => (Done f, reg)
    end.

Section Init.

Context {time_Time : Type}.
Variable time_Now : G -> time_Time * G.
Variable time_Sub : time_Time -> time_Time -> Z.
Variable Duration_String : Z -> string.
Variables os_Stdout os_Stderr : io_Writer.

Definition LoggingStdOut : Middleware :=
  fun chain => Some (NewLoggingMiddleware time_Now time_Sub Duration_String os_Stdout chain).

Definition LoggingStdErr : Middleware :=
  fun chain => Some (NewLoggingMiddleware time_Now time_Sub Duration_String os_Stderr chain).

Definition init : M Registry unit :=
  Register "middleware.Panic" (Some NewPanicMiddleware) ;;;
  Register "middleware.LoggingStdOut" (Some LoggingStdOut) ;;;
  Register "middleware.LoggingStdErr" (Some LoggingStdErr).

(** The calls the package offers on the registry, and the map each one
    leaves (also when it panics). *)
Inductive registry_call : Type :=
| CallRegister (key : string) (f : option Middleware)
| CallGet (key : string)
| CallMustGet (key : string)
| CallInit.

Definition registry_step (c : registry_call) (reg : Registry) : Registry :=
  match c with
  | CallRegister key f => after (Register key f) reg
  | CallGet key => after (Get key) reg
  | CallMustGet key => after (MustGet key) reg
  | CallInit => after init reg
  end.

Definition registry_run (cs : list registry_call) (reg : Registry) : Registry :=
  fold_left (fun r c => registry_step c r) cs reg.

End Init.

(** No key holds a nil func value. *)
Definition no_nil_stored (reg : Registry) : Prop :=
  forall key, reg !! key <> Some None.

(** What a call can do to the map: nothing, or bind a fresh key to a
    func value that is not nil. *)
Inductive grows : Registry -> Registry -> Prop :=
| grows_refl (reg : Registry) : grows reg reg
| grows_insert (reg reg' : Registry) (key : string) (f : Middleware) :
    grows reg reg' -> reg' !! key = None -> grows reg (<[key := Some f]> reg').

(** A run of [WriteHeader] calls on one wrapper: each call is made in the
    state the one before left. *)
Definition WriteHeader_calls {W} `{ResponseWriter W} (codes : list Z)
    (s : statusResponseWriter W * G) : statusResponseWriter W * G :=
  fold_left (fun s c => after (WriteHeader c) s) codes s.

(** The same run made on a sink directly, and the wrapped sink (with the
    process) inside a state of the wrapper. *)
Definition sink_WriteHeader_calls {W} `{ResponseWriter W} (codes : list Z)
    (s : W * G) : W * G :=
  fold_left (fun s c => after (rw_WriteHeader c) s) codes s.

Definition sink_of {W} (s : statusResponseWriter W * G) : W * G :=
  (wrapped (fst s), snd s).

End Middleware.

(** The first code of a run that is not zero. *)
Definition first_nonzero (codes : list Z) : option Z :=
  find (fun c => negb (c =? 0)) codes.

(** ** The fixtures of the package's tests *)

(** [httptest.ResponseRecorder] *)
Record ResponseRecorder : Type := {
  Code : Z;
  HeaderMap : http_Header;
  Body : list byte;
  wroteHeader : bool
}.

Definition NewRecorder : ResponseRecorder :=
  {| Code := 200; HeaderMap := ∅; Body := []; wroteHeader := false |}.

Definition recorder_WriteHeader {G} (code : Z) : M (ResponseRecorder * G) unit :=
  fun '(rw, g) =>
    if wroteHeader rw then (Done tt, (rw, g))
    else if (code <? 100) || (999 <? code)
    then (Panicked (PanicString ("invalid WriteHeader code " ++ FormatInt code)), (rw, g))
    else (Done tt, ({| Code := code; HeaderMap := HeaderMap rw;
                       Body := Body rw; wroteHeader := true |}, g)).

Definition recorder_Write {G} (data : list byte) : M (ResponseRecorder * G) (Z * error) :=
  recorder_WriteHeader 200 ;;;
  fun '(rw, g) =>
    (Done (Z.of_nat (length data), None),
     ({| Code := Code rw; HeaderMap := HeaderMap rw;
         Body := Body rw ++ data; wroteHeader := wroteHeader rw |}, g)).

Definition recorder_Header {G} : M (ResponseRecorder * G) http_Header :=
  fun '(rw, g) => (Done (HeaderMap rw), (rw, g)).

#[export] Instance ResponseRecorder_ResponseWriter {G} :
  ResponseWriter (G := G) ResponseRecorder := {
  rw_Header := recorder_Header;
  rw_Write := recorder_Write;
  rw_WriteHeader := recorder_WriteHeader
}.

(** A sink that accepts every call and keeps the list of them. *)
Inductive sink_call : Type :=
| SinkHeader
| SinkWrite (data : list byte)
| SinkWriteHeader (code : Z).

Definition TraceSink : Type := list sink_call.

#[export] Instance TraceSink_ResponseWriter {G} :
  ResponseWriter (G := G) TraceSink := {
  rw_Header := fun '(t, g) => (Done ∅, (t ++ [SinkHeader], g));
  rw_Write := fun data '(t, g) =>
    (Done (Z.of_nat (length data), None), (t ++ [SinkWrite data], g));
  rw_WriteHeader := fun code '(t, g) => (Done tt, (t ++ [SinkWriteHeader code], g))
}.

(** The process state of the tests: the flag the handlers set, the
    [bytes.Buffer] the logger writes to, the two standard streams, and a
    clock that has moved on by [tick] nanoseconds at each reading. *)
Record TestProcess : Type := {
  called : bool;
  buf : list byte;
  stdout : list byte;
  stderr : list byte;
  clock : Z
}.

Definition tick : Z := 1500.

Definition test_Now (g : TestProcess) : Z * TestProcess :=
  (clock g,
   {| called := called g; buf := buf g; stdout := stdout g; stderr := stderr g;
      clock := clock g + tick |}).

(** [Time.Sub] saturates at the bounds of [time.Duration]. *)
Definition test_Sub (t u : Z) : Z :=
  Z.max (- 2 ^ 63) (Z.min (2 ^ 63 - 1) (t - u)).

Definition digit_ascii (d : Z) : ascii := ascii_of_nat (48 + Z.to_nat d).

(** [fmtFrac] of package [time]: the fraction of [v / 10^prec] without its
    trailing zeros, in front of [acc], and [v / 10^prec]. *)
Fixpoint fmtFrac (v : Z) (prec : nat) (print : bool) (acc : string) : string * Z :=
  match prec with
  | O => ((if print then String "." acc else acc), v)
  | S p =>
      let digit := v mod 10 in
      let print' := print || negb (digit =? 0) in
      fmtFrac (v / 10) p print'
        (if print' then String (digit_ascii digit) acc else acc)
  end.

(** [time.Duration.String] *)
Definition time_Duration_String (d : Z) : string :=
  let u := Z.abs d in
  let sign := if d <? 0 then "-"%string else ""%string in
  let small (prec : nat) (unit_ : string) :=
    let '(frac, v) := fmtFrac u prec false unit_ in
    (sign ++ FormatInt v ++ frac)%string in
  if u <? 1000000000 then
    if u =? 0 then "0s"%string
    else if u <? 1000 then small O "ns"%string
    else if u <? 1000000 then small 3%nat (String "194" (String "181" "s"))
    else small 6%nat "ms"%string
  else
    let '(frac, v) := fmtFrac u 9 false "s"%string in
    let secs := (FormatInt (v mod 60) ++ frac)%string in
    let v := v / 60 in
    if 0 <? v then
      let mins := (FormatInt (v mod 60) ++ "m" ++ secs)%string in
      let v := v / 60 in
      if 0 <? v then (sign ++ FormatInt v ++ "h" ++ mins)%string
      else (sign ++ mins)%string
    else (sign ++ secs)%string.

(** [bytes.Buffer.Write] on the test's buffer, and the standard streams. *)
Definition test_buf : io_Writer (G := TestProcess) :=
  {| io_Write := fun data g =>
       (Done (Z.of_nat (length data), None),
        {| called := called g; buf := buf g ++ data; stdout := stdout g;
           stderr := stderr g; clock := clock g |}) |}.

Definition test_Stdout : io_Writer (G := TestProcess) :=
  {| io_Write := fun data g =>
       (Done (Z.of_nat (length data), None),
        {| called := called g; buf := buf g; stdout := stdout g ++ data;
           stderr := stderr g; clock := clock g |}) |}.

Definition test_Stderr : io_Writer (G := TestProcess) :=
  {| io_Write := fun data g =>
       (Done (Z.of_nat (length data), None),
        {| called := called g; buf := buf g; stdout := stdout g;
           stderr := stderr g ++ data; clock := clock g |}) |}.

Definition test_start : TestProcess :=
  {| called := false; buf := []; stdout := []; stderr := []; clock := 0 |}.

Definition set_called : M TestProcess unit :=
  fun g => (Done tt, {| called := true; buf := buf g; stdout := stdout g;
                        stderr := stderr g; clock := clock g |}).

(** [okHandler], [doPanic] and [noopHandler] of the tests. *)
Definition okHandler : http_Handler (G := TestProcess) :=
  Some (fun W _ r => in_process set_called ;;; rw_WriteHeader http_StatusOK).

Definition doPanic : http_Handler (G := TestProcess) :=
  Some (fun W _ r => in_process set_called ;;; panic (PanicString "bye bye")).

(** A handler that sets the flag and calls [panic(nil)]. *)
Definition nilPanic : http_Handler (G := TestProcess) :=
  Some (fun W _ r => in_process set_called ;;; panic PanicNil).

Definition noopHandler : http_Handler (G := TestProcess) :=
  Some (fun W _ r => ret tt).

Definition about_request : option http_Request :=
  Some {| URL := Some {| Path := "/about/" |} |}.

(** A request whose path holds a newline (as [/a%0Ab] is decoded). *)
Definition newline_request : option http_Request :=
  Some {| URL := Some {| Path := "/a" ++ newline ++ "b" |} |}.

(** The logging middleware and the bootstrap of the tests' process. *)
Definition test_Logging (out : io_Writer) (chain : http_Handler) : http_Handler :=
  Some (NewLoggingMiddleware test_Now test_Sub time_Duration_String out chain).

Definition test_init : M (gmap string (option (Middleware (G := TestProcess)))) unit :=
  init test_Now test_Sub time_Duration_String test_Stdout test_Stderr.

Definition test_run :=
  registry_run test_Now test_Sub time_Duration_String test_Stdout test_Stderr.

(** [f] and [o] of [TestRegisterGetMustGet]. *)
Definition test_f : Middleware (G := TestProcess) := fun next => next.
Definition test_o : Middleware (G := TestProcess) := fun next => next.

Definition string_of_bytes (l : list byte) : string := string_of_list_byte l.

(** ** Runs of calls on a sink *)

(** What a call of one of the three methods gives back. *)
Inductive call_result : Type :=
| ResHeader (h : http_Header)
| ResWrite (n : Z) (err : error)
| ResWriteHeader.

(** One call on a sink, through the interface. *)
Definition rw_call {G W} `{ResponseWriter (G := G) W} (c : sink_call)
  : M (W * G) call_result :=
  match c with
  | SinkHeader => h <- rw_Header ;; ret (ResHeader h)
  | SinkWrite data => r <- rw_Write data ;; ret (ResWrite (fst r) (snd r))
  | SinkWriteHeader code => rw_WriteHeader code ;;; ret ResWriteHeader
  end.

(** A run of calls, each made in the state the one before left, with the
    outcome of each call. *)
Fixpoint rw_run {G W} `{ResponseWriter (G := G) W} (cs : list sink_call)
    (s : W * G) : list (outcome call_result) * (W * G) :=
  match cs with
  | [] => ([], s)
  | c :: cs' =>
      let '(o, s1) := rw_call c s in
      let '(os, s2) := rw_run cs' s1 in
      (o :: os, s2)
  end.

(** The status a call asks [setStatus] to record: [Write] asks for 200,
    [WriteHeader] for its code, [Header] for nothing. *)
Definition call_code (c : sink_call) : option Z :=
  match c with
  | SinkHeader => None
  | SinkWrite _ => Some http_StatusOK
  | SinkWriteHeader code => Some code
  end.

Definition first_status (cs : list sink_call) : option Z :=
  first_nonzero (omap call_code cs).

(** The field [status] after the calls [cs], from the value [st]. *)
Definition recorded (st : Z) (cs : list sink_call) : Z :=
  if st =? 0
  then match first_status cs with Some c => c | None => 0 end
  else st.

(** ** Handlers as scripts of sink calls

    A handler that reaches its sink through the three methods only: at
    each step it returns, panics, works on the process state, or calls a
    method and goes on from the outcome of the call (a panic of the sink
    included, which it may recover from). *)
Inductive script (G : Type) : Type :=
| SReturn
| SPanic (v : PanicValue)
| SProcess {A : Type} (m : M G A) (k : outcome A -> script G)
| SHeader (k : outcome http_Header -> script G)
| SWrite (data : list byte) (k : outcome (Z * error) -> script G)
| SWriteHeader (code : Z) (k : outcome unit -> script G).
Arguments SReturn {G}.
Arguments SPanic {G} v.
Arguments SProcess {G A} m k.
Arguments SHeader {G} k.
Arguments SWrite {G} data k.
Arguments SWriteHeader {G} code k.

Fixpoint run_script {G} (p : script G) (W : Type) (RW : ResponseWriter (G := G) W)
  : M (W * G) unit :=
  match p with
  | SReturn => ret tt
  | SPanic v => panic v
  | SProcess m k =>
      fun s => let '(o, s') := in_process m s in run_script (k o) W RW s'
  | SHeader k =>
      fun s => let '(o, s') := rw_Header s in run_script (k o) W RW s'
  | SWrite data k =>
      fun s => let '(o, s') := rw_Write data s in run_script (k o) W RW s'
  | SWriteHeader code k =>
      fun s => let '(o, s') := rw_WriteHeader code s in run_script (k o) W RW s'
  end.

Definition script_handler {G} (p : option http_Request -> script G) : http_Handler :=
  Some (fun W RW r => run_script (p r) W RW).

(** The calls a script makes on a sink, in the order it makes them. *)
Fixpoint script_calls {G} (p : script G) (W : Type) (RW : ResponseWriter (G := G) W)
    (s : W * G) : list sink_call :=
  match p with
  | SReturn => []
  | SPanic _ => []
  | SProcess m k =>
      let '(o, s') := in_process m s in script_calls (k o) W RW s'
  | SHeader k =>
      let '(o, s') := rw_Header s in SinkHeader :: script_calls (k o) W RW s'
  | SWrite data k =>
      let '(o, s') := rw_Write data s in SinkWrite data :: script_calls (k o) W RW s'
  | SWriteHeader code k =>
      let '(o, s') := rw_WriteHeader code s in
      SinkWriteHeader code :: script_calls (k o) W RW s'
  end.

(** [okHandler] and [doPanic] as scripts. *)
Definition stop_on_panic {G A} (k : script G) (o : outcome A) : script G :=
  match o with
  | Done _ => k
  | Panicked v => SPanic v
  end.

Definition okHandler_script (r : option http_Request) : script TestProcess :=
  SProcess set_called
    (stop_on_panic (SWriteHeader http_StatusOK (stop_on_panic SReturn))).

Definition doPanic_script (r : option http_Request) : script TestProcess :=
  SProcess set_called (stop_on_panic (SPanic (PanicString "bye bye"))).

(** ** The log line *)

Fixpoint count_char (c : ascii) (s : string) : nat :=
  match s with
  | EmptyString => O
  | String a s' => ((if Ascii.eqb a c then 1 else 0) + count_char c s')%nat
  end.

(** ** The lock of the registry

    [sync.RWMutex] as the calling goroutine finds it: held by a writer or
    not, held by some number of readers, and with some number of writers
    of other goroutines waiting in [Lock].  [None] stands for a call that
    does not come back in that state: [Lock] waits while the lock is held
    or another writer is ahead, [RLock] waits while a writer holds the
    lock or waits for it, and [Unlock] and [RUnlock] of a lock that is not
    held abort the process. *)
Record sync_RWMutex : Type := {
  writer : bool;
  readers : nat;
  writers_waiting : nat
}.

Definition registryLock : sync_RWMutex :=
  {| writer := false; readers := 0; writers_waiting := 0 |}.

Definition Lock (mu : sync_RWMutex) : option sync_RWMutex :=
  if writer mu then None
  else match readers mu, writers_waiting mu with
       | O, O => Some {| writer := true; readers := 0; writers_waiting := 0 |}
       | _, _ => None
       end.

Definition Unlock (mu : sync_RWMutex) : option sync_RWMutex :=
  if writer mu
  then Some {| writer := false; readers := readers mu;
               writers_waiting := writers_waiting mu |}
  else None.

Definition RLock (mu : sync_RWMutex) : option sync_RWMutex :=
  if writer mu then None
  else match writers_waiting mu with
       | O => Some {| writer := false; readers := S (readers mu);
                      writers_waiting := 0 |}
       | S _ => None
       end.

Definition RUnlock (mu : sync_RWMutex) : option sync_RWMutex :=
  match readers mu with
  | O => None
  | S n => Some {| writer := writer mu; readers := n;
                   writers_waiting := writers_waiting mu |}
  end.

Section LockedRegistry.

Context {G : Type}.

Local Abbreviation Registry := (gmap string (option (Middleware (G := G)))).

(** [lock(); defer unlock(); body]: the deferred call runs whether the
    body returns or panics, and the panic goes on after it. *)
Definition locked {A} (lock unlock : sync_RWMutex -> option sync_RWMutex)
    (body : M Registry A)
  : Registry * sync_RWMutex -> option (outcome A * (Registry * sync_RWMutex)) :=
  fun '(reg, mu) =>
    match lock mu with
    | None => None
    | Some mu1 =>
        let '(o, reg') := body reg in
        match unlock mu1 with
        | None => None
        | Some mu2 => Some (o, (reg', mu2))
        end
    end.

(** The three functions with their locking, as [middleware.go] has them. *)
Definition Register_locked (key : string) (f : option Middleware)
  : Registry * sync_RWMutex -> option (outcome unit * (Registry * sync_RWMutex)) :=
  match f with
  | None => fun s => Some (Done tt, s)
  | Some _ =>
      locked Lock Unlock
        (fun reg =>
           match reg !! key with
           | Some _ => panic key_reused reg
           | None => (Done tt, <[key := f]> reg)
           end)
  end.

Definition Get_locked (key : string)
  : Registry * sync_RWMutex ->
    option (outcome (option Middleware * bool) * (Registry * sync_RWMutex)) :=
  locked RLock RUnlock
    (fun reg =>
       match reg !! key with
       | Some f => (Done (f, true), reg)
       | None => (Done (None, false), reg)
       end).

Definition MustGet_locked (key : string)
  : Registry * sync_RWMutex ->
    option (outcome (option Middleware) * (Registry * sync_RWMutex)) :=
  locked RLock RUnlock
    (fun reg =>
       let f := match reg !! key with Some f => f | None => None end in
       match f with
       | None => panic invalid_middleware reg
       | Some _ => (Done f, reg)
       end).

End LockedRegistry.

(** * Properties *)

(** ** statusResponseWriter *)

Section StatusWriterProperties.

Context {G W : Type} `{RW : ResponseWriter (G := G) W}.
Implicit Types (l : statusResponseWriter W) (g : G) (w : W).

Lemma setStatus_unfold statusValue l g :
  setStatus statusValue (l, g) =
  (Done tt, ({| wrapped := wrapped l;
                status := if status l =? 0 then statusValue else status l |}, g)).
Proof.
  unfold setStatus. destruct l as [w st]; simpl.
  destruct (st =? 0); reflexivity.
Qed.

Lemma WriteHeader_unfold statusValue l g :
  WriteHeader statusValue (l, g) =
  let '(o, (w', g')) := rw_WriteHeader statusValue (wrapped l, g) in
  (o, ({| wrapped := w';
          status := if status l =? 0 then statusValue else status l |}, g')).
Proof.
  unfold WriteHeader, bind. rewrite setStatus_unfold.
  unfold on_wrapped; simpl.
  destruct (rw_WriteHeader statusValue (wrapped l, g)) as [o [w' g']].
  reflexivity.
Qed.

Lemma Write_unfold data l g :
  Write data (l, g) =
  let '(o, (w', g')) := rw_Write data (wrapped l, g) in
  (o, ({| wrapped := w';
          status := if status l =? 0 then http_StatusOK else status l |}, g')).
Proof.
  unfold Write, bind. rewrite setStatus_unfold.
  unfold on_wrapped; simpl.
  destruct (rw_Write data (wrapped l, g)) as [o [w' g']].
  reflexivity.
Qed.

Lemma status_after_WriteHeader statusValue l g :
  status (fst (after (WriteHeader statusValue) (l, g))) =
  if status l =? 0 then statusValue else status l.
Proof.
  unfold after. rewrite WriteHeader_unfold.
  destruct (rw_WriteHeader statusValue (wrapped l, g)) as [o [w' g']].
  reflexivity.
Qed.

Lemma sink_of_after_WriteHeader statusValue l g :
  sink_of (after (WriteHeader statusValue) (l, g)) =
  after (rw_WriteHeader statusValue) (wrapped l, g).
Proof.
  unfold after, sink_of. rewrite WriteHeader_unfold.
  destruct (rw_WriteHeader statusValue (wrapped l, g)) as [o [w' g']].
  reflexivity.
Qed.

Lemma status_after_Write data l g :
  status (fst (after (Write data) (l, g))) =
  if status l =? 0 then http_StatusOK else status l.
Proof.
  unfold after. rewrite Write_unfold.
  destruct (rw_Write data (wrapped l, g)) as [o [w' g']].
  reflexivity.
Qed.

(** Once set, the field is kept by every later [WriteHeader]; while unset,
    it takes the first code that is not zero. *)
Lemma status_after_WriteHeader_calls codes : forall l g,
  status (fst (WriteHeader_calls codes (l, g))) =
  if status l =? 0
  then match first_nonzero codes with Some c => c | None => 0 end
  else status l.
Proof.
  induction codes as [|c cs IH]; intros l g; simpl.
  - destruct (status l =? 0) eqn:E; [apply Z.eqb_eq in E; exact E | reflexivity].
  - pose proof (status_after_WriteHeader c l g) as Hc.
    destruct (after (WriteHeader c) (l, g)) as [l1 g1]; simpl in Hc.
    rewrite IH, Hc.
    destruct (status l =? 0) eqn:E; [| rewrite E; reflexivity].
    destruct (c =? 0); reflexivity.
Qed.

(** C1, as the code has it: after any run of [WriteHeader] calls on a fresh
    wrapper, [GetStatus] is the first code of the run that is not zero,
    whatever was passed before or after it; when the run has no such code
    (the empty run included) it is 200. *)
Theorem GetStatus_after_WriteHeader_calls (codes : list Z) w g :
  GetStatus (fst (WriteHeader_calls codes (new_statusResponseWriter w, g))) =
  match first_nonzero codes with
  | Some c => c
  | None => http_StatusOK
  end.
Proof.
  unfold GetStatus. rewrite status_after_WriteHeader_calls. simpl.
  unfold first_nonzero.
  destruct (find (fun c => negb (c =? 0)) codes) as [c|] eqn:E; [| reflexivity].
  apply find_some in E as [_ E]. destruct (c =? 0); [discriminate | reflexivity].
Qed.

(** C6: [Write] records 200 when no status is recorded and keeps a
    recorded one, whatever the wrapped sink then does; the wrapped sink
    gets the call [Write] with the same bytes, and what that call returns
    (byte count and error) or raises is what [Write] returns or raises. *)
Theorem Write_records_default_and_delegates (data : list byte) l g :
  status (fst (after (Write data) (l, g))) =
    (if status l =? 0 then http_StatusOK else status l) /\
  sink_of (after (Write data) (l, g)) = after (rw_Write data) (wrapped l, g) /\
  result (Write data) (l, g) = result (rw_Write data) (wrapped l, g).
Proof.
  split; [apply status_after_Write |].
  unfold after, result, sink_of. rewrite Write_unfold.
  destruct (rw_Write data (wrapped l, g)) as [o [w' g']].
  split; reflexivity.
Qed.

(** C8: [WriteHeader] hands its code to the wrapped sink whether a status
    is recorded or not: its outcome is the outcome of the wrapped sink's
    [WriteHeader] with that code, and the wrapped sink is left as that call
    leaves it; so, over a run of calls, the wrapped sink has received every
    one of them.  Only the field [status] keeps its value once it is set. *)
Theorem WriteHeader_forwards_every_call (statusValue : Z) (codes : list Z) l g :
  result (WriteHeader statusValue) (l, g) =
    result (rw_WriteHeader statusValue) (wrapped l, g) /\
  sink_of (after (WriteHeader statusValue) (l, g)) =
    after (rw_WriteHeader statusValue) (wrapped l, g) /\
  sink_of (WriteHeader_calls codes (l, g)) =
    sink_WriteHeader_calls codes (wrapped l, g) /\
  status (fst (after (WriteHeader statusValue) (l, g))) =
    (if status l =? 0 then statusValue else status l).
Proof.
  split; [| split; [| split]].
  - unfold result. rewrite WriteHeader_unfold.
    destruct (rw_WriteHeader statusValue (wrapped l, g)) as [o [w' g']]. reflexivity.
  - apply sink_of_after_WriteHeader.
  - revert l g. induction codes as [|c cs IH]; intros l g; [reflexivity |].
    simpl. pose proof (sink_of_after_WriteHeader c l g) as Hc.
    destruct (after (WriteHeader c) (l, g)) as [l1 g1].
    rewrite IH. unfold sink_of in Hc; simpl in Hc. rewrite Hc. reflexivity.
  - apply status_after_WriteHeader.
Qed.

(** C10: a first [WriteHeader(0)] on a fresh wrapper records nothing: the
    field stays 0 and [GetStatus] is 200; the next [WriteHeader] puts its
    code in the field, and the next [Write] puts 200 there. *)
Theorem WriteHeader_zero_records_nothing w g :
  let s1 := after (WriteHeader 0) (new_statusResponseWriter w, g) in
  status (fst s1) = 0 /\
  GetStatus (fst s1) = http_StatusOK /\
  (forall c, status (fst (after (WriteHeader c) s1)) = c /\
             GetStatus (fst (after (WriteHeader c) s1)) =
             if c =? 0 then http_StatusOK else c) /\
  (forall data, status (fst (after (Write data) s1)) = http_StatusOK /\
                GetStatus (fst (after (Write data) s1)) = http_StatusOK).
Proof.
  intros s1.
  assert (H0 : status (fst s1) = 0).
  { unfold s1. rewrite status_after_WriteHeader. reflexivity. }
  destruct s1 as [l1 g1]; simpl in H0.
  split; [exact H0 |].
  split; [unfold GetStatus; simpl; rewrite H0; reflexivity |].
  split.
  - intros c. unfold GetStatus.
    rewrite status_after_WriteHeader, H0. simpl. split; reflexivity.
  - intros data. unfold GetStatus.
    rewrite status_after_Write, H0. simpl. split; reflexivity.
Qed.

End StatusWriterProperties.

(** C1 as the specification words it fails: after [WriteHeader(0)] and
    [WriteHeader(404)] on a fresh wrapper, [GetStatus] is 404 and not the
    first code passed. *)
Lemma GetStatus_not_first_code :
  GetStatus (fst (WriteHeader_calls [0; 404]
                    (new_statusResponseWriter ([] : TraceSink), test_start))) = 404
  /\ hd 0 [0; 404] <> 404.
Proof. split; [reflexivity | discriminate]. Qed.

(** The scenarios of [TestLoggingResponseWriter]. *)
Example recorder_WriteHeader_twice :
  GetStatus (fst (WriteHeader_calls [403; 409]
                    (new_statusResponseWriter NewRecorder, test_start))) = 403.
Proof. reflexivity. Qed.

Example recorder_Write_hello :
  let s := after (Write (list_byte_of_string "Hello World!"))
             (new_statusResponseWriter NewRecorder, test_start) in
  GetStatus (fst s) = 200 /\
  string_of_bytes (Body (wrapped (fst s))) = "Hello World!"%string.
Proof. split; reflexivity. Qed.

(** Both header writes reach the wrapped sink. *)
Example trace_WriteHeader_twice :
  wrapped (fst (WriteHeader_calls [403; 409]
                  (new_statusResponseWriter ([] : TraceSink), test_start))) =
  [SinkWriteHeader 403; SinkWriteHeader 409].
Proof. reflexivity. Qed.

(** ** NewPanicMiddleware *)

Section PanicProperties.

Context {G W : Type} `{RW : ResponseWriter (G := G) W}.

Lemma NewPanicMiddleware_unfold (chain : http_Handler) r (s : W * G) :
  ServeHTTP (NewPanicMiddleware chain) W RW r s =
  match ServeHTTP chain W RW r s with
  | (Done _, s') => (Done tt, s')
  | (Panicked PanicNil, s') => (Done tt, s')
  | (Panicked _, s') => rw_WriteHeader 500 s'
  end.
Proof.
  unfold NewPanicMiddleware. cbn [ServeHTTP]. unfold defer_recover.
  destruct (ServeHTTP chain W RW r s) as [[[]|[| |]] s']; reflexivity.
Qed.


End PanicProperties.



(** A nil inner handler panics when it is served, and that panic is
    contained like any other. *)
Example NewPanicMiddleware_nil_chain :
  result (ServeHTTP (NewPanicMiddleware None) _ _ None) (NewRecorder, test_start) = Done tt /\
  Code (fst (after (ServeHTTP (NewPanicMiddleware None) _ _ None)
               (NewRecorder, test_start))) = 500.
Proof. split; reflexivity. Qed.

(** ** NewLoggingMiddleware *)

Lemma count_char_app c (a b : string) :
  count_char c (a ++ b) = (count_char c a + count_char c b)%nat.
Proof.
  induction a as [|x a IH]; simpl; [reflexivity |].
  rewrite IH. lia.
Qed.

Lemma string_app_assoc (a b c : string) : ((a ++ b) ++ c = a ++ (b ++ c))%string.
Proof.
  induction a as [|x a IH]; [reflexivity |].
  change (String x ((a ++ b) ++ c) = String x (a ++ (b ++ c)))%string.
  rewrite IH. reflexivity.
Qed.

Lemma count_newline_uint (d : Decimal.uint) :
  count_char "010" (NilEmpty.string_of_uint d) = O.
Proof. induction d; simpl; try rewrite IHd; reflexivity. Qed.

Lemma count_newline_FormatInt (n : Z) : count_char "010" (FormatInt n) = O.
Proof.
  unfold FormatInt. destruct (Z.to_int n) as [d|d]; simpl;
    apply count_newline_uint.
Qed.

Lemma Sprintf_count_newline (Duration_String : Z -> string) code path d :
  count_char "010" (Sprintf Duration_String code path d) =
  (count_char "010" path + count_char "010" (Duration_String d) + 1)%nat.
Proof.
  unfold Sprintf. rewrite !count_char_app, count_newline_FormatInt.
  simpl. lia.
Qed.

Section LoggingProperties.

Context {G W time_Time : Type} `{RW : ResponseWriter (G := G) W}.
Variable time_Now : G -> time_Time * G.
Variable time_Sub : time_Time -> time_Time -> Z.
Variable Duration_String : Z -> string.

Local Abbreviation Logging :=
  (NewLoggingMiddleware time_Now time_Sub Duration_String).

Lemma NewLoggingMiddleware_unfold out chain r w g :
  Logging out chain W RW r (w, g) =
  let '(start, g1) := time_Now g in
  match ServeHTTP chain (statusResponseWriter W) _ r (new_statusResponseWriter w, g1) with
  | (Panicked v, (l, g2)) => (Panicked v, (wrapped l, g2))
  | (Done _, (l, g2)) =>
      let '(end_, g3) := time_Now g2 in
      match r with
      | Some {| URL := Some u |} =>
          let line := Sprintf Duration_String (GetStatus l) (Path u) (time_Sub end_ start) in
          match io_Write out (list_byte_of_string line) g3 with
          | (Done _, g4) => (Done tt, (wrapped l, g4))
          | (Panicked v, g4) => (Panicked v, (wrapped l, g4))
          end
      | _ => (Panicked nil_dereference, (wrapped l, g3))
      end
  end.
Proof.
  unfold NewLoggingMiddleware, with_statusWriter, bind, Now, in_process.
  simpl.
  destruct (time_Now g) as [start g1].
  destruct (ServeHTTP chain (statusResponseWriter W) _ r (new_statusResponseWriter w, g1))
    as [[[]|v] [l g2]]; [| reflexivity].
  destruct (time_Now g2) as [end_ g3]. simpl.
  destruct r as [[[u|]]|]; simpl; try reflexivity.
  destruct (io_Write out _ g3) as [[a|v] g4]; reflexivity.
Qed.

(** C7, as the code has it.  When the inner handler, run on a fresh
    wrapper around the caller's sink, returns, and the request has a URL,
    the handler makes one [out.Write], after the inner handler, with the
    bytes of [Sprintf("%d %s %v\n", status, path, elapsed)]: the status
    the wrapper holds, the path of the URL as it is, the time between the
    two clock readings, and a newline at the end; before that newline the
    entry has as many newlines as the path and the printed duration hold,
    so it is a single line exactly when they hold none.  When the inner
    handler panics, the panic goes through and the process is left as the
    inner handler left it: nothing is written to [out].  When the inner
    handler returns and the request or its URL is nil, the handler panics
    at [r.URL.Path], again before any [out.Write].  In each case the
    caller's sink is left as the inner handler left it. *)
Theorem NewLoggingMiddleware_logs_entry_or_nothing out chain r w g start g1 l g2 :
  time_Now g = (start, g1) ->
  (forall rq u end_ g3,
     r = Some rq ->
     URL rq = Some u ->
     ServeHTTP chain (statusResponseWriter W) _ r (new_statusResponseWriter w, g1)
       = (Done tt, (l, g2)) ->
     time_Now g2 = (end_, g3) ->
     let entry := (FormatInt (GetStatus l) ++ " " ++ Path u ++ " "
                   ++ Duration_String (time_Sub end_ start) ++ newline)%string in
     Logging out chain W RW r (w, g) =
       match io_Write out (list_byte_of_string entry) g3 with
       | (Done _, g4) => (Done tt, (wrapped l, g4))
       | (Panicked v, g4) => (Panicked v, (wrapped l, g4))
       end /\
     count_char "010" entry =
       (count_char "010" (Path u)
        + count_char "010" (Duration_String (time_Sub end_ start)) + 1)%nat) /\
  (forall v,
     ServeHTTP chain (statusResponseWriter W) _ r (new_statusResponseWriter w, g1)
       = (Panicked v, (l, g2)) ->
     Logging out chain W RW r (w, g) = (Panicked v, (wrapped l, g2))) /\
  (forall end_ g3,
     ServeHTTP chain (statusResponseWriter W) _ r (new_statusResponseWriter w, g1)
       = (Done tt, (l, g2)) ->
     time_Now g2 = (end_, g3) ->
     r = None \/ r = Some {| URL := None |} ->
     Logging out chain W RW r (w, g) = (Panicked nil_dereference, (wrapped l, g3))).
Proof.
  intros Hstart. split; [| split].
  - intros rq u end_ g3 Hr Hu Hchain Hend entry.
    rewrite NewLoggingMiddleware_unfold, Hstart, Hchain, Hend.
    subst r. destruct rq as [url]; simpl in Hu; subst url.
    split; [reflexivity |].
    apply (Sprintf_count_newline Duration_String (GetStatus l) (Path u)
             (time_Sub end_ start)).
  - intros v Hchain.
    rewrite NewLoggingMiddleware_unfold, Hstart, Hchain. reflexivity.
  - intros end_ g3 Hchain Hend Hr.
    rewrite NewLoggingMiddleware_unfold, Hstart, Hchain, Hend.
    destruct Hr as [-> | ->]; reflexivity.
Qed.

End LoggingProperties.

(** [TestLoggingMiddleware]: a request for [/about/] through the logger
    around [okHandler] leaves the one line [200 /about/ 1.5µs] in the
    buffer, status 200 in the recorder, and the flag set; around [doPanic]
    it leaves the buffer empty and panics with the handler's value. *)
Lemma NewLoggingMiddleware_logs_entry_or_nothing_witness :
  let entry := ("200 /about/ 1.5" ++ String "194" (String "181" "s") ++ newline)%string in
  (ServeHTTP (test_Logging test_buf okHandler) _ _ about_request (NewRecorder, test_start) =
   (Done tt,
    ({| Code := 200; HeaderMap := ∅; Body := []; wroteHeader := true |},
     {| called := true; buf := list_byte_of_string entry;
        stdout := []; stderr := []; clock := 3000 |})) /\
   count_char "010" entry = 1%nat) /\
  ServeHTTP (test_Logging test_buf doPanic) _ _ about_request (NewRecorder, test_start) =
  (Panicked (PanicString "bye bye"),
   (NewRecorder,
    {| called := true; buf := []; stdout := []; stderr := []; clock := 1500 |})).
Proof.
  intros entry. split.
  - apply (proj1 (NewLoggingMiddleware_logs_entry_or_nothing (W := ResponseRecorder)
             test_Now test_Sub time_Duration_String test_buf okHandler about_request
             NewRecorder test_start 0
             {| called := false; buf := []; stdout := []; stderr := []; clock := 1500 |}
             {| wrapped := {| Code := 200; HeaderMap := ∅; Body := []; wroteHeader := true |};
                status := 200 |}
             {| called := true; buf := []; stdout := []; stderr := []; clock := 1500 |}
             eq_refl)
             {| URL := Some {| Path := "/about/" |} |} {| Path := "/about/" |}
             1500
             {| called := true; buf := []; stdout := []; stderr := []; clock := 3000 |});
      reflexivity.
  - apply (proj1 (proj2 (NewLoggingMiddleware_logs_entry_or_nothing (W := ResponseRecorder)
             test_Now test_Sub time_Duration_String test_buf doPanic about_request
             NewRecorder test_start 0
             {| called := false; buf := []; stdout := []; stderr := []; clock := 1500 |}
             (new_statusResponseWriter NewRecorder)
             {| called := true; buf := []; stdout := []; stderr := []; clock := 1500 |}
             eq_refl))
             (PanicString "bye bye")).
    reflexivity.
Defined.

(** C7 as the specification words it fails: when the inner handler panics
    the panic goes through and nothing is written to [out]; the same
    happens, after the inner handler has run, for a request without URL;
    and for a path that holds a newline what is written is two lines. *)
Lemma NewLoggingMiddleware_no_line_on_panic :
  (let '(o, (_, g)) :=
     ServeHTTP (test_Logging test_buf doPanic) _ _ about_request (NewRecorder, test_start) in
   o = Panicked (PanicString "bye bye") /\ called g = true /\ buf g = []) /\
  (let '(o, (_, g)) :=
     ServeHTTP (test_Logging test_buf okHandler) _ _ None (NewRecorder, test_start) in
   o = Panicked nil_dereference /\ called g = true /\ buf g = []) /\
  (let '(o, (_, g)) :=
     ServeHTTP (test_Logging test_buf okHandler) _ _ newline_request
       (NewRecorder, test_start) in
   o = Done tt /\ count_char "010" (string_of_bytes (buf g)) = 2%nat).
Proof. split; [| split]; repeat split; reflexivity. Qed.

(** ** The registry *)

Section RegistryProperties.

Context {G time_Time : Type}.
Variable time_Now : G -> time_Time * G.
Variable time_Sub : time_Time -> time_Time -> Z.
Variable Duration_String : Z -> string.
Variables os_Stdout os_Stderr : io_Writer (G := G).

Local Abbreviation Registry := (gmap string (option (Middleware (G := G)))).
Local Abbreviation init' :=
  (init time_Now time_Sub Duration_String os_Stdout os_Stderr).
Local Abbreviation run :=
  (registry_run time_Now time_Sub Duration_String os_Stdout os_Stderr).
Local Abbreviation step :=
  (registry_step time_Now time_Sub Duration_String os_Stdout os_Stderr).

Implicit Types (reg : Registry) (key : string) (f : Middleware (G := G)).

Lemma Register_nil key reg : Register key None reg = (Done tt, reg).
Proof. reflexivity. Qed.

Lemma Register_present key f old reg :
  reg !! key = Some old -> Register key (Some f) reg = (Panicked key_reused, reg).
Proof. intros E. unfold Register. rewrite E. reflexivity. Qed.

Lemma Register_fresh key f reg :
  reg !! key = None -> Register key (Some f) reg = (Done tt, <[key := Some f]> reg).
Proof. intros E. unfold Register. rewrite E. reflexivity. Qed.

Lemma Get_present key v reg :
  reg !! key = Some v -> Get key reg = (Done (v, true), reg).
Proof. intros E. unfold Get. rewrite E. reflexivity. Qed.

Lemma Get_absent key reg :
  reg !! key = None -> Get key reg = (Done (None, false), reg).
Proof. intros E. unfold Get. rewrite E. reflexivity. Qed.

Lemma MustGet_present key f reg :
  reg !! key = Some (Some f) -> MustGet key reg = (Done (Some f), reg).
Proof. intros E. unfold MustGet. rewrite E. reflexivity. Qed.

Lemma MustGet_absent key reg :
  reg !! key = None -> MustGet key reg = (Panicked invalid_middleware, reg).
Proof. intros E. unfold MustGet. rewrite E. reflexivity. Qed.

Lemma grows_trans reg1 reg2 reg3 :
  grows reg1 reg2 -> grows reg2 reg3 -> grows reg1 reg3.
Proof.
  intros H12 H23. induction H23 as [|reg2 reg3 key f H23 IH Hk].
  - exact H12.
  - apply grows_insert; [apply IH; exact H12 | exact Hk].
Qed.

Lemma grows_keeps reg reg' :
  grows reg reg' -> forall key v, reg !! key = Some v -> reg' !! key = Some v.
Proof.
  induction 1 as [|reg reg' k f Hg IH Hk]; intros key v E; [exact E |].
  destruct (decide (k = key)) as [->|Hne].
  - apply IH in E. congruence.
  - rewrite lookup_insert_ne by exact Hne. apply IH; exact E.
Qed.

Lemma grows_no_nil reg reg' :
  grows reg reg' -> no_nil_stored reg -> no_nil_stored reg'.
Proof.
  induction 1 as [|reg reg' k f Hg IH Hk]; intros Hn; [exact Hn |].
  intros key. destruct (decide (k = key)) as [->|Hne].
  - rewrite lookup_insert_eq. discriminate.
  - rewrite lookup_insert_ne by exact Hne. apply IH; exact Hn.
Qed.

Lemma Register_grows key o reg : grows reg (after (Register key o) reg).
Proof.
  destruct o as [f|]; [| apply grows_refl].
  unfold after. destruct (reg !! key) as [old|] eqn:E.
  - rewrite (Register_present _ _ _ _ E). apply grows_refl.
  - rewrite (Register_fresh _ _ _ E). apply grows_insert; [apply grows_refl | exact E].
Qed.

Lemma Get_grows key reg : grows reg (after (Get key) reg).
Proof. unfold after, Get. destruct (reg !! key); apply grows_refl. Qed.

Lemma MustGet_grows key reg : grows reg (after (MustGet key) reg).
Proof.
  unfold after, MustGet. destruct (reg !! key) as [[f|]|]; apply grows_refl.
Qed.

Lemma seq_grows {A B} (m : M Registry A) (k : M Registry B) :
  (forall reg, grows reg (after m reg)) ->
  (forall reg, grows reg (after k reg)) ->
  forall reg, grows reg (after (m ;;; k) reg).
Proof.
  intros Hm Hk reg. unfold after, bind in *.
  specialize (Hm reg). destruct (m reg) as [[a|v] reg1]; simpl in *.
  - eapply grows_trans; [exact Hm | apply Hk].
  - exact Hm.
Qed.

Lemma init_grows reg : grows reg (after init' reg).
Proof.
  unfold init. repeat apply seq_grows; intros; apply Register_grows.
Qed.

Lemma step_grows c reg : grows reg (step c reg).
Proof.
  destruct c; simpl.
  - apply Register_grows.
  - apply Get_grows.
  - apply MustGet_grows.
  - apply init_grows.
Qed.

Lemma run_grows cs : forall reg, grows reg (run cs reg).
Proof.
  induction cs as [|c cs IH]; intros reg; simpl.
  - apply grows_refl.
  - eapply grows_trans; [apply step_grows | apply IH].
Qed.

Lemma registry_no_nil : no_nil_stored (registry (G := G)).
Proof. intros key. unfold registry. rewrite lookup_empty. discriminate. Qed.

(** The bootstrap on the empty registry binds the three keys. *)
Lemma init_registry :
  init' registry =
  (Done tt,
   <["middleware.LoggingStdErr" :=
       Some (LoggingStdErr time_Now time_Sub Duration_String os_Stderr)]>
     (<["middleware.LoggingStdOut" :=
          Some (LoggingStdOut time_Now time_Sub Duration_String os_Stdout)]>
        (<["middleware.Panic" := Some NewPanicMiddleware]> ∅))).
Proof.
  unfold init, bind, registry.
  rewrite Register_fresh by apply lookup_empty.
  rewrite Register_fresh by (rewrite lookup_insert_ne by discriminate; apply lookup_empty).
  rewrite Register_fresh
    by (rewrite !lookup_insert_ne by discriminate; apply lookup_empty).
  reflexivity.
Qed.

(** C3: [Register] with a nil func value returns and leaves the map as it
    is, also when it is called again under the same key; with a func value
    that is not nil it panics when the key is bound, to whatever value and
    also to the very one passed, and leaves the map as it is; when the key
    is free it returns and the key is bound to the func value. *)
Theorem Register_nil_reused_fresh key f reg :
  Register key None reg = (Done tt, reg) /\
  (Register key None ;;; Register key None) reg = (Done tt, reg) /\
  (forall old, reg !! key = Some old ->
     Register key (Some f) reg = (Panicked key_reused, reg)) /\
  (reg !! key = None ->
     Register key (Some f) reg = (Done tt, <[key := Some f]> reg) /\
     after (Register key (Some f)) reg !! key = Some (Some f) /\
     (Register key (Some f) ;;; Register key (Some f)) reg =
       (Panicked key_reused, <[key := Some f]> reg)).
Proof.
  split; [reflexivity |]. split; [reflexivity |]. split.
  - intros old E. apply (Register_present _ _ _ _ E).
  - intros E. pose proof (Register_fresh key f reg E) as R.
    split; [exact R |]. split.
    + unfold after. rewrite R. simpl. apply lookup_insert_eq.
    + unfold bind. rewrite R.
      apply (Register_present key f (Some f)). apply lookup_insert_eq.
Qed.

(** C4, as the code has it: once a key has been registered with a func
    value that is not nil, [Get] returns that value and true and [MustGet]
    returns it, after any further calls on the registry; for a key that is
    not in the map [Get] returns nil and false and [MustGet] panics, both
    leaving the map as it is.  The empty string is such a key as long as
    nothing was registered under it, as after the bootstrap. *)
Theorem Get_MustGet_registered_or_absent key f reg cs :
  (reg !! key = None ->
     let reg' := run cs (after (Register key (Some f)) reg) in
     Get key reg' = (Done (Some f, true), reg') /\
     MustGet key reg' = (Done (Some f), reg')) /\
  (reg !! key = None ->
     Get key reg = (Done (None, false), reg) /\
     MustGet key reg = (Panicked invalid_middleware, reg)) /\
  after init' registry !! "" = None.
Proof.
  split; [| split].
  - intros E reg'.
    assert (E' : reg' !! key = Some (Some f)).
    { apply (grows_keeps _ _ (run_grows cs _)).
      unfold after. rewrite (Register_fresh _ _ _ E). apply lookup_insert_eq. }
    split; [apply (Get_present _ _ _ E') | apply (MustGet_present _ _ _ E')].
  - intros E. split; [apply (Get_absent _ _ E) | apply (MustGet_absent _ _ E)].
  - unfold after. rewrite init_registry. simpl.
    rewrite !lookup_insert_ne by discriminate. apply lookup_empty.
Qed.

(** C5: over any run of [Register], [Get], [MustGet] and [init] calls, a
    key that is bound stays bound to the same func value (it is neither
    overwritten nor deleted), and no key comes to hold nil: in a map
    without nil there is none after the run, so there is none in any map
    reached from the empty registry of process start. *)
Theorem registry_write_once cs reg :
  (forall key v, reg !! key = Some v -> run cs reg !! key = Some v) /\
  (no_nil_stored reg -> no_nil_stored (run cs reg)) /\
  no_nil_stored (run cs registry).
Proof.
  split; [| split].
  - apply grows_keeps, run_grows.
  - apply grows_no_nil, run_grows.
  - apply (grows_no_nil _ _ (run_grows cs _)), registry_no_nil.
Qed.

(** C9: [init] on the empty registry returns, and then [Get] finds each of
    the three keys with a func value that is not nil, which yields a
    handler that is not nil for every inner handler, nil included. *)
Theorem init_installs_three_keys :
  let reg := after init' registry in
  result init' registry = Done tt /\
  Get "middleware.Panic" reg = (Done (Some NewPanicMiddleware, true), reg) /\
  Get "middleware.LoggingStdOut" reg =
    (Done (Some (LoggingStdOut time_Now time_Sub Duration_String os_Stdout), true), reg) /\
  Get "middleware.LoggingStdErr" reg =
    (Done (Some (LoggingStdErr time_Now time_Sub Duration_String os_Stderr), true), reg) /\
  (forall chain, exists h, NewPanicMiddleware (G := G) chain = Some h) /\
  (forall chain, exists h,
     LoggingStdOut time_Now time_Sub Duration_String os_Stdout chain = Some h) /\
  (forall chain, exists h,
     LoggingStdErr time_Now time_Sub Duration_String os_Stderr chain = Some h).
Proof.
  unfold after, result. rewrite init_registry. simpl.
  split; [reflexivity |].
  split; [apply Get_present; rewrite !lookup_insert_ne by discriminate;
          apply lookup_insert_eq |].
  split; [apply Get_present; rewrite lookup_insert_ne by discriminate;
          apply lookup_insert_eq |].
  split; [apply Get_present; apply lookup_insert_eq |].
  repeat split; intros chain; eexists; reflexivity.
Qed.

End RegistryProperties.

(** [TestRegisterGetMustGet], on its empty registry: [nillHandler] is
    registered, a nil under [noop] is not, and a second registration under
    [nillHandler] panics, with [o] as with [f] itself. *)
Lemma Register_nil_reused_fresh_witness :
  let reg := <["nillHandler" := Some test_f]> (registry (G := TestProcess)) in
  Register "nillHandler" (Some test_f) registry = (Done tt, reg) /\
  Register "nillHandler" (Some test_o) reg = (Panicked key_reused, reg) /\
  (Register "nillHandler" (Some test_f) ;;; Register "nillHandler" (Some test_f)) registry =
    (Panicked key_reused, reg) /\
  (Register "noop" None ;;; Register "noop" None) reg = (Done tt, reg).
Proof.
  intros reg.
  split; [| split; [| split]].
  - apply (proj2 (proj2 (proj2
             (Register_nil_reused_fresh "nillHandler" test_f registry)))).
    reflexivity.
  - apply (proj1 (proj2 (proj2
             (Register_nil_reused_fresh "nillHandler" test_o reg))) (Some test_f)).
    reflexivity.
  - apply (proj2 (proj2 (proj2
             (Register_nil_reused_fresh "nillHandler" test_f registry)))).
    reflexivity.
  - apply (proj1 (proj2 (Register_nil_reused_fresh "noop" test_f reg))).
Defined.

Lemma Get_MustGet_registered_or_absent_witness :
  let cs := [CallRegister "noop" None; CallRegister "nillHandler" (Some test_o);
             CallGet ""; CallMustGet "non-existant"; CallInit] in
  let reg' := test_run cs (after (Register "nillHandler" (Some test_f)) registry) in
  (Get "nillHandler" reg' = (Done (Some test_f, true), reg') /\
   MustGet "nillHandler" reg' = (Done (Some test_f), reg')) /\
  (Get "" registry = (Done (None, false), registry (G := TestProcess)) /\
   MustGet "non-existant" registry =
     (Panicked invalid_middleware, registry (G := TestProcess))).
Proof.
  intros cs reg'. split.
  - apply (proj1 (Get_MustGet_registered_or_absent
                    test_Now test_Sub time_Duration_String test_Stdout test_Stderr
                    "nillHandler" test_f registry cs)).
    reflexivity.
  - split.
    + apply (proj1 (proj2 (Get_MustGet_registered_or_absent
                    test_Now test_Sub time_Duration_String test_Stdout test_Stderr
                    "" test_f registry [])) eq_refl).
    + apply (proj1 (proj2 (Get_MustGet_registered_or_absent
                    test_Now test_Sub time_Duration_String test_Stdout test_Stderr
                    "non-existant" test_f registry [])) eq_refl).
Defined.

(** C4 as the specification words it fails for the empty string: it is a
    key like any other, and once a func value is registered under it [Get]
    finds that value and [MustGet] returns it. *)
Lemma Get_empty_key_registered :
  let reg := after (Register "" (Some test_f)) registry in
  Get "" reg = (Done (Some test_f, true), reg) /\
  MustGet "" reg = (Done (Some test_f), reg) /\
  (Some test_f, true) <> (None, false).
Proof. split; [reflexivity | split; [reflexivity | discriminate]]. Qed.

Lemma registry_write_once_witness :
  let cs := [CallInit; CallRegister "nillHandler" (Some test_o);
             CallRegister "noop" None; CallGet "nillHandler";
             CallMustGet "non-existant"; CallInit] in
  let reg := <["nillHandler" := Some test_f]> registry in
  test_run cs reg !! "nillHandler" = Some (Some test_f) /\
  no_nil_stored (test_run cs reg) /\
  no_nil_stored (test_run cs registry).
Proof.
  intros cs reg.
  destruct (registry_write_once
              test_Now test_Sub time_Duration_String test_Stdout test_Stderr
              cs reg) as (Hkeep & Hnil & Hstart).
  split; [| split].
  - apply Hkeep. reflexivity.
  - apply Hnil. intros key. unfold reg, registry.
    destruct (decide ("nillHandler"%string = key)) as [<-|Hne].
    + rewrite lookup_insert_eq. discriminate.
    + rewrite lookup_insert_ne by exact Hne. rewrite lookup_empty. discriminate.
  - exact Hstart.
Defined.

(** [TestInitalRegistryContents]: the three keys are found in the
    registry of the tests' process, and each func value makes a handler
    out of [noopHandler]. *)
Lemma init_installs_three_keys_witness :
  let reg := after test_init registry in
  (exists f, Get "middleware.Panic" reg = (Done (Some f, true), reg) /\
             exists h, f noopHandler = Some h) /\
  (exists f, Get "middleware.LoggingStdOut" reg = (Done (Some f, true), reg) /\
             exists h, f noopHandler = Some h) /\
  (exists f, Get "middleware.LoggingStdErr" reg = (Done (Some f, true), reg) /\
             exists h, f noopHandler = Some h).
Proof.
  intros reg.
  destruct (init_installs_three_keys
              test_Now test_Sub time_Duration_String test_Stdout test_Stderr)
    as (_ & Hp & Ho & He & Np & No & Ne).
  split; [| split]; eexists; (split; [eassumption |]).
  - apply Np.
  - apply No.
  - apply Ne.
Defined.

(** * Further properties *)

(** ** statusResponseWriter under runs of all three methods *)

Section StatusWriterRuns.

Context {G W : Type} `{RW : ResponseWriter (G := G) W}.
Implicit Types (l : statusResponseWriter W) (g : G) (w : W).

Lemma recorded_nil st : recorded st [] = st.
Proof.
  unfold recorded. simpl. destruct (st =? 0) eqn:E; [| reflexivity].
  apply Z.eqb_eq in E. symmetry. exact E.
Qed.

Lemma recorded_cons st c cs :
  recorded st (c :: cs) =
  recorded (match call_code c with
            | Some v => if st =? 0 then v else st
            | None => st
            end) cs.
Proof.
  unfold recorded, first_status, first_nonzero. simpl.
  destruct (call_code c) as [v|]; simpl; [| reflexivity].
  destruct (st =? 0) eqn:E; [| rewrite E; reflexivity].
  destruct (v =? 0) eqn:Ev; simpl; [| reflexivity].
  apply Z.eqb_eq in Ev. subst v. reflexivity.
Qed.

Lemma recorded_set st cs : st <> 0 -> recorded st cs = st.
Proof.
  intros Hst. unfold recorded.
  destruct (st =? 0) eqn:E; [apply Z.eqb_eq in E; contradiction | reflexivity].
Qed.

Lemma Header_unfold l g :
  Header (l, g) =
  let '(o, (w', g')) := rw_Header (wrapped l, g) in
  (o, ({| wrapped := w'; status := status l |}, g')).
Proof. reflexivity. Qed.

(** One call on the wrapper is the same call on the wrapped sink, with
    the field updated as the call asks. *)
Lemma rw_call_on_wrapper c l g :
  rw_call c (l, g) =
  let '(o, (w', g')) := rw_call c (wrapped l, g) in
  (o, ({| wrapped := w';
          status := match call_code c with
                    | Some v => if status l =? 0 then v else status l
                    | None => status l
                    end |}, g')).
Proof.
  destruct c as [|data|code]; unfold rw_call, bind;
    cbn [rw_Header rw_Write rw_WriteHeader statusResponseWriter_ResponseWriter call_code].
  - rewrite Header_unfold.
    destruct (rw_Header (wrapped l, g)) as [[h|v] [w' g']]; reflexivity.
  - rewrite Write_unfold.
    destruct (rw_Write data (wrapped l, g)) as [[r|v] [w' g']]; reflexivity.
  - rewrite WriteHeader_unfold.
    destruct (rw_WriteHeader code (wrapped l, g)) as [[[]|v] [w' g']]; reflexivity.
Qed.

Lemma rw_run_on_wrapper cs : forall l g,
  rw_run cs (l, g) =
  let '(os, (w', g')) := rw_run cs (wrapped l, g) in
  (os, ({| wrapped := w'; status := recorded (status l) cs |}, g')).
Proof.
  induction cs as [|c cs IH]; intros l g.
  - simpl. rewrite recorded_nil. destruct l; reflexivity.
  - cbn [rw_run]. rewrite rw_call_on_wrapper.
    destruct (rw_call c (wrapped l, g)) as [o [w1 g1]].
    rewrite IH. cbn [wrapped status].
    destruct (rw_run cs (w1, g1)) as [os [w2 g2]].
    rewrite (recorded_cons (status l) c cs). reflexivity.
Qed.

(** X1: once the field [status] is not zero, no run of [Header], [Write]
    and [WriteHeader] calls changes it, and [GetStatus] keeps returning
    it. *)
Theorem status_kept_by_every_call (cs : list sink_call) l g :
  status l <> 0 ->
  status (fst (snd (rw_run cs (l, g)))) = status l /\
  GetStatus (fst (snd (rw_run cs (l, g)))) = GetStatus l.
Proof.
  intros Hst. rewrite rw_run_on_wrapper.
  destruct (rw_run cs (wrapped l, g)) as [os [w' g']].
  unfold GetStatus. cbn [fst snd status].
  rewrite (recorded_set _ _ Hst). split; reflexivity.
Qed.

(** X2: after any run of [Header], [Write] and [WriteHeader] calls on a
    fresh wrapper, [GetStatus] is the first status asked for that is not
    zero, where a [Write] asks for 200, a [WriteHeader] for its code and a
    [Header] for nothing; it is 200 when there is none, and never 0. *)
Theorem GetStatus_after_calls (cs : list sink_call) w g :
  let l := fst (snd (rw_run cs (new_statusResponseWriter w, g))) in
  GetStatus l = match first_status cs with
                | Some c => c
                | None => http_StatusOK
                end /\
  (GetStatus l =? 0) = false.
Proof.
  rewrite rw_run_on_wrapper.
  destruct (rw_run cs (wrapped (new_statusResponseWriter w), g)) as [os [w' g']].
  cbn [fst snd]. unfold GetStatus, recorded. cbn [status new_statusResponseWriter].
  assert (Hnz : forall c, first_status cs = Some c -> (c =? 0) = false).
  { intros c E. unfold first_status, first_nonzero in E.
    apply find_some in E as [_ E]. destruct (c =? 0); [discriminate | reflexivity]. }
  simpl. destruct (first_status cs) as [c|].
  - rewrite (Hnz c eq_refl). split; [reflexivity | apply Hnz; reflexivity].
  - split; reflexivity.
Qed.

(** X3: the wrapper is a transparent proxy: over any run of calls, each
    call on the wrapper has the outcome the same call has on the wrapped
    sink (result or panic), and the wrapped sink and the process are left
    as by the same run made on the sink directly. *)
Theorem wrapper_is_transparent (cs : list sink_call) l g :
  fst (rw_run cs (l, g)) = fst (rw_run cs (wrapped l, g)) /\
  sink_of (snd (rw_run cs (l, g))) = snd (rw_run cs (wrapped l, g)).
Proof.
  rewrite rw_run_on_wrapper.
  destruct (rw_run cs (wrapped l, g)) as [os [w' g']].
  split; reflexivity.
Qed.

End StatusWriterRuns.

Lemma status_kept_by_every_call_witness :
  let l := {| wrapped := NewRecorder; status := 403 |} in
  let cs := [SinkWriteHeader 409; SinkHeader;
             SinkWrite (list_byte_of_string "Hello World!"); SinkWriteHeader 0] in
  status (fst (snd (rw_run cs (l, test_start)))) = 403 /\
  GetStatus (fst (snd (rw_run cs (l, test_start)))) = 403.
Proof.
  intros l cs.
  apply (status_kept_by_every_call cs l test_start). discriminate.
Defined.

(** X4: two wrappers stacked on a sink record the same status: after any
    run of calls on the outer one, both return the same [GetStatus]. *)
Theorem stacked_wrappers_agree {G W : Type} `{RW : ResponseWriter (G := G) W}
    (cs : list sink_call) (w : W) (g : G) :
  let outer :=
    fst (snd (rw_run cs (new_statusResponseWriter (new_statusResponseWriter w), g))) in
  GetStatus outer = GetStatus (wrapped outer).
Proof.
  rewrite rw_run_on_wrapper. cbn [wrapped new_statusResponseWriter status].
  rewrite rw_run_on_wrapper. cbn [wrapped new_statusResponseWriter status].
  destruct (rw_run cs (w, g)) as [os [w' g']].
  reflexivity.
Qed.

(** ** The two middlewares and their compositions *)

Section MiddlewareComposition.

Context {G W time_Time : Type} `{RW : ResponseWriter (G := G) W}.
Variable time_Now : G -> time_Time * G.
Variable time_Sub : time_Time -> time_Time -> Z.
Variable Duration_String : Z -> string.

Local Abbreviation Logging :=
  (NewLoggingMiddleware time_Now time_Sub Duration_String).
Local Abbreviation line code path d :=
  (list_byte_of_string (Sprintf Duration_String code path d)).

(** X5: on a sink whose [WriteHeader(500)] always returns, the handler of
    [NewPanicMiddleware] returns for every inner handler (nil included),
    every request and every state: no panic of the inner handler gets
    out. *)
Theorem NewPanicMiddleware_always_returns (chain : http_Handler) r (s : W * G) :
  (forall s0, exists s1, rw_WriteHeader 500 s0 = (Done tt, s1)) ->
  exists s', ServeHTTP (NewPanicMiddleware chain) W RW r s = (Done tt, s').
Proof.
  intros Hsink. rewrite NewPanicMiddleware_unfold.
  destruct (ServeHTTP chain W RW r s) as [[[]|[| |]] s1].
  - exists s1. reflexivity.
  - exists s1. reflexivity.
  - apply Hsink.
  - apply Hsink.
Qed.

(** X6: the logging handler lets a panic of the inner handler through with
    its value, without a second clock reading and without a call of
    [out.Write]: the process is left as the inner handler left it.  When
    the inner handler returns and the request or its URL is nil, the
    handler panics on [r.URL.Path], again before any [out.Write]. *)
Theorem NewLoggingMiddleware_propagates_panic out chain r w g start g1 l g2 :
  time_Now g = (start, g1) ->
  (forall v,
     ServeHTTP chain (statusResponseWriter W) _ r (new_statusResponseWriter w, g1)
       = (Panicked v, (l, g2)) ->
     Logging out chain W RW r (w, g) = (Panicked v, (wrapped l, g2))) /\
  (forall end_ g3,
     ServeHTTP chain (statusResponseWriter W) _ r (new_statusResponseWriter w, g1)
       = (Done tt, (l, g2)) ->
     time_Now g2 = (end_, g3) ->
     r = None \/ r = Some {| URL := None |} ->
     Logging out chain W RW r (w, g) = (Panicked nil_dereference, (wrapped l, g3))).
Proof.
  intros Hstart. split.
  - intros v Hchain.
    rewrite NewLoggingMiddleware_unfold, Hstart, Hchain. reflexivity.
  - intros end_ g3 Hchain Hend Hr.
    rewrite NewLoggingMiddleware_unfold, Hstart, Hchain, Hend.
    destruct Hr as [-> | ->]; reflexivity.
Qed.

(** X7: panic recovery outside logging.  When the inner handler panics
    under the logger, no line is logged for the request.  For a panic
    value that is not nil, the handler of [NewPanicMiddleware] around the
    logger is the call [WriteHeader(500)] on the caller's sink, in the
    state the inner handler left; for a panic with nil it returns in that
    state without any [WriteHeader]. *)
Theorem panic_around_logging out chain r w g start g1 v l g2 :
  time_Now g = (start, g1) ->
  ServeHTTP chain (statusResponseWriter W) _ r (new_statusResponseWriter w, g1)
    = (Panicked v, (l, g2)) ->
  (v <> PanicNil ->
   ServeHTTP (NewPanicMiddleware (Some (Logging out chain))) W RW r (w, g) =
   rw_WriteHeader 500 (wrapped l, g2)) /\
  (v = PanicNil ->
   ServeHTTP (NewPanicMiddleware (Some (Logging out chain))) W RW r (w, g) =
   (Done tt, (wrapped l, g2))).
Proof.
  intros Hstart Hchain. rewrite NewPanicMiddleware_unfold.
  cbn [ServeHTTP].
  rewrite NewLoggingMiddleware_unfold, Hstart, Hchain.
  split; intros Hv.
  - destruct v; [contradiction | reflexivity | reflexivity].
  - subst v. reflexivity.
Qed.

(** X8: logging outside panic recovery.  When the inner handler panics
    with a value that is not nil and the caller's sink takes
    [WriteHeader(500)], the logger around the handler of
    [NewPanicMiddleware] writes its line: the status in it is 500 when the
    inner handler had recorded none before it panicked, and the recorded
    one otherwise.  When the inner handler panics with nil, no
    [WriteHeader(500)] is made and the line carries what [GetStatus]
    returns for what the inner handler recorded: 200 when that is
    nothing. *)
Theorem logging_around_panic out chain rq u w g start g1 v l g2 :
  URL rq = Some u ->
  time_Now g = (start, g1) ->
  ServeHTTP chain (statusResponseWriter W) _ (Some rq) (new_statusResponseWriter w, g1)
    = (Panicked v, (l, g2)) ->
  (forall w' g2' end_ g3,
     v <> PanicNil ->
     rw_WriteHeader 500 (wrapped l, g2) = (Done tt, (w', g2')) ->
     time_Now g2' = (end_, g3) ->
     Logging out (NewPanicMiddleware chain) W RW (Some rq) (w, g) =
     match io_Write out
             (line (if status l =? 0 then 500 else status l) (Path u)
                   (time_Sub end_ start)) g3 with
     | (Done _, g4) => (Done tt, (w', g4))
     | (Panicked v', g4) => (Panicked v', (w', g4))
     end) /\
  (forall end_ g3,
     v = PanicNil ->
     time_Now g2 = (end_, g3) ->
     Logging out (NewPanicMiddleware chain) W RW (Some rq) (w, g) =
     match io_Write out
             (line (if status l =? 0 then http_StatusOK else status l) (Path u)
                   (time_Sub end_ start)) g3 with
     | (Done _, g4) => (Done tt, (wrapped l, g4))
     | (Panicked v', g4) => (Panicked v', (wrapped l, g4))
     end).
Proof.
  intros Hu Hstart Hchain.
  destruct rq as [url]; simpl in Hu; subst url.
  split.
  - intros w' g2' end_ g3 Hv Hsink Hend.
    rewrite NewLoggingMiddleware_unfold, Hstart.
    rewrite NewPanicMiddleware_unfold, Hchain.
    assert (E : rw_WriteHeader (G := G) (W := statusResponseWriter W) 500 (l, g2) =
                (Done tt, ({| wrapped := w';
                              status := if status l =? 0 then 500 else status l |}, g2'))).
    { cbn [rw_WriteHeader statusResponseWriter_ResponseWriter].
      rewrite WriteHeader_unfold, Hsink. reflexivity. }
    destruct v; [contradiction | |]; rewrite E, Hend;
      unfold GetStatus; cbn [status wrapped];
      (destruct (status l =? 0) eqn:E0; [reflexivity | rewrite E0; reflexivity]).
  - intros end_ g3 Hv Hend. subst v.
    rewrite NewLoggingMiddleware_unfold, Hstart.
    rewrite NewPanicMiddleware_unfold, Hchain, Hend.
    reflexivity.
Qed.

End MiddlewareComposition.

Lemma NewPanicMiddleware_always_returns_witness :
  exists s', ServeHTTP (NewPanicMiddleware doPanic) TraceSink _ None ([], test_start)
             = (Done tt, s').
Proof.
  apply (NewPanicMiddleware_always_returns (W := TraceSink) doPanic None ([], test_start)).
  intros [t g]. eexists. reflexivity.
Defined.

Lemma NewLoggingMiddleware_propagates_panic_witness :
  let g1 := {| called := false; buf := []; stdout := []; stderr := []; clock := 1500 |} in
  let g2 := {| called := true; buf := []; stdout := []; stderr := []; clock := 1500 |} in
  let g3 := {| called := true; buf := []; stdout := []; stderr := []; clock := 3000 |} in
  ServeHTTP (test_Logging test_buf doPanic) _ _ about_request (NewRecorder, test_start)
    = (Panicked (PanicString "bye bye"), (NewRecorder, g2)) /\
  ServeHTTP (test_Logging test_buf okHandler) _ _ None (NewRecorder, test_start)
    = (Panicked nil_dereference,
       ({| Code := 200; HeaderMap := ∅; Body := []; wroteHeader := true |}, g3)).
Proof.
  intros g1 g2 g3. split.
  - apply (proj1 (NewLoggingMiddleware_propagates_panic (W := ResponseRecorder)
             test_Now test_Sub time_Duration_String test_buf doPanic about_request
             NewRecorder test_start 0 g1 (new_statusResponseWriter NewRecorder) g2
             eq_refl)).
    reflexivity.
  - apply (proj2 (NewLoggingMiddleware_propagates_panic (W := ResponseRecorder)
             test_Now test_Sub time_Duration_String test_buf okHandler None
             NewRecorder test_start 0 g1
             {| wrapped := {| Code := 200; HeaderMap := ∅; Body := []; wroteHeader := true |};
                status := 200 |} g2
             eq_refl) 1500 g3); [reflexivity | reflexivity | left; reflexivity].
Defined.

(** [doPanic] behind both middlewares, in the two orders, for [/about/]:
    recovery outside leaves status 500 and an empty log; logging outside
    leaves status 500 and the line [500 /about/ 1.5µs].  With [nilPanic]
    in its place no header is written, and logging outside leaves the
    line [200 /about/ 1.5µs]. *)
Lemma panic_around_logging_witness :
  ServeHTTP (NewPanicMiddleware (test_Logging test_buf doPanic)) _ _ about_request
    (NewRecorder, test_start) =
  (Done tt,
   ({| Code := 500; HeaderMap := ∅; Body := []; wroteHeader := true |},
    {| called := true; buf := []; stdout := []; stderr := []; clock := 1500 |})) /\
  ServeHTTP (NewPanicMiddleware (test_Logging test_buf nilPanic)) _ _ about_request
    (NewRecorder, test_start) =
  (Done tt,
   (NewRecorder,
    {| called := true; buf := []; stdout := []; stderr := []; clock := 1500 |})).
Proof.
  split.
  - etransitivity.
    + apply (proj1 (panic_around_logging (W := ResponseRecorder)
               test_Now test_Sub time_Duration_String test_buf doPanic about_request
               NewRecorder test_start 0
               {| called := false; buf := []; stdout := []; stderr := []; clock := 1500 |}
               (PanicString "bye bye") (new_statusResponseWriter NewRecorder)
               {| called := true; buf := []; stdout := []; stderr := []; clock := 1500 |}
               eq_refl eq_refl)).
      discriminate.
    + reflexivity.
  - apply (proj2 (panic_around_logging (W := ResponseRecorder)
               test_Now test_Sub time_Duration_String test_buf nilPanic about_request
               NewRecorder test_start 0
               {| called := false; buf := []; stdout := []; stderr := []; clock := 1500 |}
               PanicNil (new_statusResponseWriter NewRecorder)
               {| called := true; buf := []; stdout := []; stderr := []; clock := 1500 |}
               eq_refl eq_refl)).
    reflexivity.
Defined.

Lemma logging_around_panic_witness :
  ServeHTTP (test_Logging test_buf (NewPanicMiddleware doPanic)) _ _ about_request
    (NewRecorder, test_start) =
  (Done tt,
   ({| Code := 500; HeaderMap := ∅; Body := []; wroteHeader := true |},
    {| called := true;
       buf := list_byte_of_string
                ("500 /about/ 1.5" ++ String "194" (String "181" "s") ++ newline);
       stdout := []; stderr := []; clock := 3000 |})) /\
  ServeHTTP (test_Logging test_buf (NewPanicMiddleware nilPanic)) _ _ about_request
    (NewRecorder, test_start) =
  (Done tt,
   (NewRecorder,
    {| called := true;
       buf := list_byte_of_string
                ("200 /about/ 1.5" ++ String "194" (String "181" "s") ++ newline);
       stdout := []; stderr := []; clock := 3000 |})).
Proof.
  split.
  - etransitivity.
    + apply (proj1 (logging_around_panic (W := ResponseRecorder)
               test_Now test_Sub time_Duration_String test_buf doPanic
               {| URL := Some {| Path := "/about/" |} |} {| Path := "/about/" |}
               NewRecorder test_start 0
               {| called := false; buf := []; stdout := []; stderr := []; clock := 1500 |}
               (PanicString "bye bye") (new_statusResponseWriter NewRecorder)
               {| called := true; buf := []; stdout := []; stderr := []; clock := 1500 |}
               eq_refl eq_refl eq_refl)
               {| Code := 500; HeaderMap := ∅; Body := []; wroteHeader := true |}
               {| called := true; buf := []; stdout := []; stderr := []; clock := 1500 |}
               1500
               {| called := true; buf := []; stdout := []; stderr := []; clock := 3000 |});
        [discriminate | reflexivity | reflexivity].
    + reflexivity.
  - etransitivity.
    + apply (proj2 (logging_around_panic (W := ResponseRecorder)
               test_Now test_Sub time_Duration_String test_buf nilPanic
               {| URL := Some {| Path := "/about/" |} |} {| Path := "/about/" |}
               NewRecorder test_start 0
               {| called := false; buf := []; stdout := []; stderr := []; clock := 1500 |}
               PanicNil (new_statusResponseWriter NewRecorder)
               {| called := true; buf := []; stdout := []; stderr := []; clock := 1500 |}
               eq_refl eq_refl eq_refl)
               1500
               {| called := true; buf := []; stdout := []; stderr := []; clock := 3000 |});
        reflexivity.
    + reflexivity.
Defined.

(** ** Logging around a handler that uses its sink through the interface *)

Section ScriptHandlers.

Context {G W time_Time : Type} `{RW : ResponseWriter (G := G) W}.
Variable time_Now : G -> time_Time * G.
Variable time_Sub : time_Time -> time_Time -> Z.
Variable Duration_String : Z -> string.

Local Abbreviation Logging :=
  (NewLoggingMiddleware time_Now time_Sub Duration_String).
Local Abbreviation line code path d :=
  (list_byte_of_string (Sprintf Duration_String code path d)).

(** A script run on the wrapper does to the wrapped sink and the process
    what it does when run on the sink, with the same outcome; the field
    becomes what the calls of the script ask for. *)
Lemma run_script_on_wrapper (p : script G) : forall (l : statusResponseWriter W) g,
  run_script p (statusResponseWriter W) _ (l, g) =
  let '(o, (w', g')) := run_script p W RW (wrapped l, g) in
  (o, ({| wrapped := w';
          status := recorded (status l) (script_calls p W RW (wrapped l, g)) |}, g')).
Proof.
  induction p as [|v|A m k IH|k IH|data k IH|code k IH]; intros l g.
  - cbn [run_script script_calls]. unfold ret. rewrite recorded_nil.
    destruct l; reflexivity.
  - cbn [run_script script_calls]. unfold panic. rewrite recorded_nil.
    destruct l; reflexivity.
  - cbn [run_script script_calls]. unfold in_process.
    destruct (m g) as [o g1]. apply IH.
  - cbn [run_script script_calls].
    cbn [rw_Header statusResponseWriter_ResponseWriter].
    rewrite Header_unfold.
    destruct (rw_Header (wrapped l, g)) as [o [w1 g1]].
    rewrite IH. cbn [wrapped status].
    destruct (run_script (k o) W RW (w1, g1)) as [o' [w' g']].
    rewrite (recorded_cons (status l) SinkHeader). reflexivity.
  - cbn [run_script script_calls].
    cbn [rw_Write statusResponseWriter_ResponseWriter].
    rewrite Write_unfold.
    destruct (rw_Write data (wrapped l, g)) as [o [w1 g1]].
    rewrite IH. cbn [wrapped status].
    destruct (run_script (k o) W RW (w1, g1)) as [o' [w' g']].
    rewrite (recorded_cons (status l) (SinkWrite data)). reflexivity.
  - cbn [run_script script_calls].
    cbn [rw_WriteHeader statusResponseWriter_ResponseWriter].
    rewrite WriteHeader_unfold.
    destruct (rw_WriteHeader code (wrapped l, g)) as [o [w1 g1]].
    rewrite IH. cbn [wrapped status].
    destruct (run_script (k o) W RW (w1, g1)) as [o' [w' g']].
    rewrite (recorded_cons (status l) (SinkWriteHeader code)). reflexivity.
Qed.

(** X9: for an inner handler that reaches its sink through [Header],
    [Write] and [WriteHeader] only, the logger changes nothing of what the
    handler does to the caller's sink: the sink ends as when the handler
    runs on it directly (after the first clock reading).  When the handler
    returns, the status in the line is the first status it asked for that
    is not zero ([Write] asking for 200), or 200; when it panics, the panic
    gets through as it is. *)
Theorem logging_is_transparent out (p : option http_Request -> script G)
    rq u w g start g1 w' g2 :
  URL rq = Some u ->
  time_Now g = (start, g1) ->
  (forall end_ g3,
     run_script (p (Some rq)) W RW (w, g1) = (Done tt, (w', g2)) ->
     time_Now g2 = (end_, g3) ->
     Logging out (script_handler p) W RW (Some rq) (w, g) =
     match io_Write out
             (line (match first_status (script_calls (p (Some rq)) W RW (w, g1)) with
                    | Some c => c
                    | None => http_StatusOK
                    end) (Path u) (time_Sub end_ start)) g3 with
     | (Done _, g4) => (Done tt, (w', g4))
     | (Panicked v, g4) => (Panicked v, (w', g4))
     end) /\
  (forall v,
     run_script (p (Some rq)) W RW (w, g1) = (Panicked v, (w', g2)) ->
     Logging out (script_handler p) W RW (Some rq) (w, g) = (Panicked v, (w', g2))).
Proof.
  intros Hu Hstart.
  assert (Hnz : forall cs c, first_status cs = Some c -> (c =? 0) = false).
  { intros cs c E. unfold first_status, first_nonzero in E.
    apply find_some in E as [_ E]. destruct (c =? 0); [discriminate | reflexivity]. }
  split.
  - intros end_ g3 Hrun Hend.
    rewrite NewLoggingMiddleware_unfold, Hstart.
    cbn [ServeHTTP script_handler].
    rewrite run_script_on_wrapper. cbn [wrapped status new_statusResponseWriter].
    rewrite Hrun, Hend.
    destruct rq as [url]; simpl in Hu; subst url.
    unfold GetStatus, recorded. cbn [status wrapped]. simpl (0 =? 0).
    cbv iota.
    destruct (first_status (script_calls (p (Some {| URL := Some u |})) W RW (w, g1)))
      as [c|] eqn:E.
    + rewrite (Hnz _ _ E). reflexivity.
    + reflexivity.
  - intros v Hrun.
    rewrite NewLoggingMiddleware_unfold, Hstart.
    cbn [ServeHTTP script_handler].
    rewrite run_script_on_wrapper. cbn [wrapped status new_statusResponseWriter].
    rewrite Hrun. reflexivity.
Qed.

End ScriptHandlers.

Lemma logging_is_transparent_witness :
  ServeHTTP (test_Logging test_buf (script_handler okHandler_script)) _ _ about_request
    (NewRecorder, test_start) =
  (Done tt,
   ({| Code := 200; HeaderMap := ∅; Body := []; wroteHeader := true |},
    {| called := true;
       buf := list_byte_of_string
                ("200 /about/ 1.5" ++ String "194" (String "181" "s") ++ newline);
       stdout := []; stderr := []; clock := 3000 |})) /\
  ServeHTTP (test_Logging test_buf (script_handler doPanic_script)) _ _ about_request
    (NewRecorder, test_start) =
  (Panicked (PanicString "bye bye"),
   (NewRecorder,
    {| called := true; buf := []; stdout := []; stderr := []; clock := 1500 |})).
Proof.
  split.
  - refine (eq_trans
      (proj1 (logging_is_transparent (W := ResponseRecorder)
         test_Now test_Sub time_Duration_String test_buf okHandler_script
         {| URL := Some {| Path := "/about/" |} |} {| Path := "/about/" |}
         NewRecorder test_start 0
         {| called := false; buf := []; stdout := []; stderr := []; clock := 1500 |}
         {| Code := 200; HeaderMap := ∅; Body := []; wroteHeader := true |}
         {| called := true; buf := []; stdout := []; stderr := []; clock := 1500 |}
         eq_refl eq_refl)
         1500
         {| called := true; buf := []; stdout := []; stderr := []; clock := 3000 |}
         eq_refl eq_refl)
      eq_refl).
  - refine (proj2 (logging_is_transparent (W := ResponseRecorder)
         test_Now test_Sub time_Duration_String test_buf doPanic_script
         {| URL := Some {| Path := "/about/" |} |} {| Path := "/about/" |}
         NewRecorder test_start 0
         {| called := false; buf := []; stdout := []; stderr := []; clock := 1500 |}
         NewRecorder
         {| called := true; buf := []; stdout := []; stderr := []; clock := 1500 |}
         eq_refl eq_refl)
         (PanicString "bye bye") eq_refl).
Defined.

(** ** The log line *)

(** X10: the line of [Sprintf("%d %s %v\n", ...)] ends with a newline, and
    has as many newlines before it as the path and the printed duration
    hold: the path goes into the log as it is, so the entry is one line
    exactly when neither of the two holds a newline. *)
Theorem Sprintf_newlines (Duration_String : Z -> string) (code : Z) (path : string) (d : Z) :
  (exists body, Sprintf Duration_String code path d = (body ++ newline)%string) /\
  count_char "010" (Sprintf Duration_String code path d) =
    (count_char "010" path + count_char "010" (Duration_String d) + 1)%nat.
Proof.
  split.
  - exists (FormatInt code ++ " " ++ path ++ " " ++ Duration_String d)%string.
    unfold Sprintf. rewrite !string_app_assoc. reflexivity.
  - apply Sprintf_count_newline.
Qed.

(** ** The registry: what its users can rely on *)

Section RegistryUse.

Context {G time_Time : Type}.
Variable time_Now : G -> time_Time * G.
Variable time_Sub : time_Time -> time_Time -> Z.
Variable Duration_String : Z -> string.
Variables os_Stdout os_Stderr : io_Writer (G := G).

Local Abbreviation Registry := (gmap string (option (Middleware (G := G)))).
Local Abbreviation init' :=
  (init time_Now time_Sub Duration_String os_Stdout os_Stderr).
Local Abbreviation run :=
  (registry_run time_Now time_Sub Duration_String os_Stdout os_Stderr).

Implicit Types (reg : Registry) (key : string) (f : Middleware (G := G)).

(** X11: the three bootstrap entries stay for good: after [init] and any
    run of calls, [Get] still returns the constructor the bootstrap
    installed under each of the three keys, and [Register] of any func
    value that is not nil under one of them panics. *)
Theorem bootstrap_entries_stay cs :
  let reg := run cs (after init' registry) in
  (Get "middleware.Panic" reg = (Done (Some NewPanicMiddleware, true), reg) /\
   Get "middleware.LoggingStdOut" reg =
     (Done (Some (LoggingStdOut time_Now time_Sub Duration_String os_Stdout), true), reg) /\
   Get "middleware.LoggingStdErr" reg =
     (Done (Some (LoggingStdErr time_Now time_Sub Duration_String os_Stderr), true), reg)) /\
  (forall f,
     Register "middleware.Panic" (Some f) reg = (Panicked key_reused, reg) /\
     Register "middleware.LoggingStdOut" (Some f) reg = (Panicked key_reused, reg) /\
     Register "middleware.LoggingStdErr" (Some f) reg = (Panicked key_reused, reg)).
Proof.
  intros reg.
  pose proof (grows_keeps _ _
    (run_grows time_Now time_Sub Duration_String os_Stdout os_Stderr cs
       (after init' registry))) as Hkeep.
  fold reg in Hkeep.
  assert (Hp : reg !! "middleware.Panic" = Some (Some NewPanicMiddleware)).
  { apply Hkeep. unfold after. rewrite init_registry. simpl.
    rewrite !lookup_insert_ne by discriminate. apply lookup_insert_eq. }
  assert (Ho : reg !! "middleware.LoggingStdOut" =
               Some (Some (LoggingStdOut time_Now time_Sub Duration_String os_Stdout))).
  { apply Hkeep. unfold after. rewrite init_registry. simpl.
    rewrite lookup_insert_ne by discriminate. apply lookup_insert_eq. }
  assert (He : reg !! "middleware.LoggingStdErr" =
               Some (Some (LoggingStdErr time_Now time_Sub Duration_String os_Stderr))).
  { apply Hkeep. unfold after. rewrite init_registry. simpl. apply lookup_insert_eq. }
  split.
  - split; [| split]; apply Get_present; assumption.
  - intros f. split; [| split]; eapply Register_present; eassumption.
Qed.

(** X12: in every registry reached from process start, [Get] and [MustGet]
    agree: either [Get] finds a func value that is not nil and [MustGet]
    returns the same, or [Get] finds nothing and [MustGet] panics.  They
    would part only on a key bound to nil, where [Get] returns nil and
    true while [MustGet] panics. *)
Theorem Get_MustGet_agree cs key reg0 :
  (let reg := run cs registry in
   (exists f, Get key reg = (Done (Some f, true), reg) /\
              MustGet key reg = (Done (Some f), reg)) \/
   (Get key reg = (Done (None, false), reg) /\
    MustGet key reg = (Panicked invalid_middleware, reg))) /\
  (reg0 !! key = Some None ->
   Get key reg0 = (Done (None, true), reg0) /\
   MustGet key reg0 = (Panicked invalid_middleware, reg0)).
Proof.
  split.
  - intros reg.
    pose proof (grows_no_nil _ _
      (run_grows time_Now time_Sub Duration_String os_Stdout os_Stderr cs registry)
      registry_no_nil key) as Hnil.
    fold reg in Hnil.
    destruct (reg !! key) as [[f|]|] eqn:E.
    + left. exists f. split; [apply Get_present | apply MustGet_present]; exact E.
    + contradiction.
    + right. split; [apply Get_absent | apply MustGet_absent]; exact E.
  - intros E. unfold Get, MustGet. rewrite E. split; reflexivity.
Qed.

(** X13: a call concerns its own key only.  [Register] under one key
    leaves what [Get] and [MustGet] answer for every other key; [Get] and
    [MustGet] leave the map as it is, also when [MustGet] panics. *)
Theorem calls_touch_own_key_only key key' (o : option Middleware) reg :
  (key <> key' ->
   after (Register key o) reg !! key' = reg !! key' /\
   result (Get key') (after (Register key o) reg) = result (Get key') reg /\
   result (MustGet key') (after (Register key o) reg) = result (MustGet key') reg) /\
  after (Get key) reg = reg /\
  after (MustGet key) reg = reg.
Proof.
  split; [| split].
  - intros Hne.
    assert (E : after (Register key o) reg !! key' = reg !! key').
    { unfold after. destruct o as [f|]; [| reflexivity].
      destruct (reg !! key) as [old|] eqn:Ek.
      - rewrite (Register_present _ _ _ _ Ek). reflexivity.
      - rewrite (Register_fresh _ _ _ Ek). simpl.
        apply lookup_insert_ne. exact Hne. }
    split; [exact E |].
    unfold result, Get, MustGet. rewrite E.
    split; destruct (reg !! key') as [[f|]|]; reflexivity.
  - unfold after, Get. destruct (reg !! key); reflexivity.
  - unfold after, MustGet. destruct (reg !! key) as [[f|]|]; reflexivity.
Qed.

(** X14: with the lock free, each of [Register], [Get] and [MustGet] comes
    back with the outcome and the map of its step on the map alone, and
    with the lock free again, also when it panics: the deferred unlock
    runs on the way out of the panic. *)
Theorem locked_calls_release_the_lock key (o : option Middleware) reg :
  Register_locked key o (reg, registryLock) =
    Some (result (Register key o) reg, (after (Register key o) reg, registryLock)) /\
  Get_locked key (reg, registryLock) =
    Some (result (Get key) reg, (after (Get key) reg, registryLock)) /\
  MustGet_locked key (reg, registryLock) =
    Some (result (MustGet key) reg, (after (MustGet key) reg, registryLock)).
Proof.
  unfold result, after. split; [| split].
  - destruct o as [f|]; [| reflexivity].
    unfold Register_locked, locked, Register. simpl.
    destruct (reg !! key); reflexivity.
  - unfold Get_locked, locked, Get. simpl.
    destruct (reg !! key); reflexivity.
  - unfold MustGet_locked, locked, MustGet. simpl.
    destruct (reg !! key) as [[f|]|]; reflexivity.
Qed.


End RegistryUse.

Lemma Get_MustGet_agree_witness :
  Get "noop" (<["noop" := None]> (registry (G := TestProcess))) =
    (Done (None, true), <["noop" := None]> registry) /\
  MustGet "noop" (<["noop" := None]> (registry (G := TestProcess))) =
    (Panicked invalid_middleware, <["noop" := None]> registry).
Proof.
  apply (proj2 (Get_MustGet_agree
                  test_Now test_Sub time_Duration_String test_Stdout test_Stderr
                  [] "noop" (<["noop" := None]> registry))).
  reflexivity.
Defined.

Lemma calls_touch_own_key_only_witness :
  let reg := after (Register "nillHandler" (Some test_f)) registry in
  result (Get "nillHandler") (after (Register "other" (Some test_o)) reg)
    = result (Get "nillHandler") reg /\
  result (MustGet "non-existant") (after (Register "other" (Some test_o)) reg)
    = result (MustGet "non-existant") reg.
Proof.
  intros reg. split.
  - apply (proj1 (calls_touch_own_key_only "other" "nillHandler" (Some test_o) reg)).
    discriminate.
  - apply (proj1 (calls_touch_own_key_only "other" "non-existant" (Some test_o) reg)).
    discriminate.
Defined.


Section RegistryStart.

Context {G time_Time : Type}.
Variable time_Now : G -> time_Time * G.
Variable time_Sub : time_Time -> time_Time -> Z.
Variable Duration_String : Z -> string.
Variables os_Stdout os_Stderr : io_Writer (G := G).

Local Abbreviation Registry := (gmap string (option (Middleware (G := G)))).
Local Abbreviation init' :=
  (init time_Now time_Sub Duration_String os_Stdout os_Stderr).

(** X16: what [MustGet] returns is never nil, whatever the map holds: when
    it returns, the key is bound to a func value that is not nil and that
    value is the result; the map is left as it is. *)
Theorem MustGet_result_not_nil key (reg reg' : Registry) (o : option Middleware) :
  MustGet key reg = (Done o, reg') ->
  exists f, o = Some f /\ reg !! key = Some (Some f) /\ reg' = reg.
Proof.
  unfold MustGet. destruct (reg !! key) as [[f|]|]; simpl; intros E.
  - injection E as <- <-. exists f. repeat split.
  - discriminate.
  - discriminate.
Qed.

(** X17: the bootstrap binds the three keys and nothing else: right after
    [init], [Get] finds nothing under any other key and [MustGet] panics
    there, and [Register] of a func value under such a key returns. *)
Theorem init_binds_nothing_else key (f : Middleware) :
  key <> "middleware.Panic"%string ->
  key <> "middleware.LoggingStdOut"%string ->
  key <> "middleware.LoggingStdErr"%string ->
  let reg := after init' registry in
  Get key reg = (Done (None, false), reg) /\
  MustGet key reg = (Panicked invalid_middleware, reg) /\
  Register key (Some f) reg = (Done tt, <[key := Some f]> reg).
Proof.
  intros Hp Ho He reg.
  assert (E : reg !! key = None).
  { unfold reg, after. rewrite init_registry. simpl.
    rewrite !lookup_insert_ne by congruence. apply lookup_empty. }
  split; [apply Get_absent; exact E |].
  split; [apply MustGet_absent; exact E | apply Register_fresh; exact E].
Qed.

End RegistryStart.

Lemma MustGet_result_not_nil_witness :
  let reg := <["nillHandler" := Some test_f]> (registry (G := TestProcess)) in
  exists f, Some test_f = Some f /\ reg !! "nillHandler" = Some (Some f) /\ reg = reg.
Proof.
  intros reg.
  apply (MustGet_result_not_nil "nillHandler" reg reg (Some test_f)).
  reflexivity.
Defined.

Lemma init_binds_nothing_else_witness :
  let reg := after test_init registry in
  Get "" reg = (Done (None, false), reg) /\
  MustGet "" reg = (Panicked invalid_middleware, reg) /\
  Register "" (Some test_f) reg = (Done tt, <["" := Some test_f]> reg).
Proof.
  apply (init_binds_nothing_else
           test_Now test_Sub time_Duration_String test_Stdout test_Stderr "" test_f);
    discriminate.
Defined.
